(** * Verification of ai_processing.py and the recipe flow of streamlit_app.py

    Shallow embedding of the AI recipe recommender:
    - Python strings are sequences of code points, modelled as [list Z];
    - [str.strip], [str.replace] and the [in] operator on strings;
    - the credential lookup, [identify_ingredients], [generate_recipe]
      and [generate_recipe_video] of ai_processing.py, in a small
      state/exception monad that records every call to the generative
      model;
    - a model of CPython's [json.loads] and of the parse/display steps of
      streamlit_app.py. *)

From Stdlib Require Import ZArith List String Ascii Bool Lia.
Import ListNotations.
Open Scope Z_scope.
Set Warnings "-register-all".

(** ** Python strings *)

Definition pystr := list Z.

(** Code points of a Rocq string literal (all literals used are ASCII). *)
Fixpoint s2c (s : string) : pystr :=
  match s with
  | EmptyString => []
  | String a t => Z.of_nat (nat_of_ascii a) :: s2c t
  end.

(** Literals of the source that contain double quotes are written with a
    single quote in place of each double quote and converted by [pylit]. *)
Definition pylit (s : string) : pystr :=
  map (fun c => if c =? 39 then 34 else c) (s2c s).

(** [str.isspace] on one code point (Unicode White_Space as used by
    [str.strip] with no argument). *)
Definition py_isspace (c : Z) : bool :=
  ((9 <=? c) && (c <=? 13)) || ((28 <=? c) && (c <=? 32)) ||
  (c =? 133) || (c =? 160) || (c =? 5760) ||
  ((8192 <=? c) && (c <=? 8202)) || (c =? 8232) || (c =? 8233) ||
  (c =? 8239) || (c =? 8287) || (c =? 12288).

Fixpoint lstrip (s : pystr) : pystr :=
  match s with
  | [] => []
  | c :: t => if py_isspace c then lstrip t else s
  end.

Fixpoint rstrip (s : pystr) : pystr :=
  match s with
  | [] => []
  | c :: t =>
      match rstrip t with
      | [] => if py_isspace c then [] else [c]
      | r => c :: r
      end
  end.

(** [s.strip()] *)
Definition py_strip (s : pystr) : pystr := rstrip (lstrip s).

(** [prefixb p s]: [s.startswith(p)]. *)
Fixpoint prefixb (p s : pystr) : bool :=
  match p, s with
  | [], _ => true
  | x :: p', y :: s' => (x =? y) && prefixb p' s'
  | _ :: _, [] => false
  end.

(** [p in s] for strings. *)
Fixpoint contains (p s : pystr) : bool :=
  prefixb p s ||
  match s with
  | [] => false
  | _ :: t => contains p t
  end.

(** [s.replace(old, new)]: occurrences are found from the left and do not
    overlap.  The fuel bounds the number of scanning steps; each step
    consumes at least one code point, so [length s] steps suffice. *)
Fixpoint replace_fuel (fuel : nat) (old new s : pystr) : pystr :=
  match fuel with
  | O => s
  | S f =>
      match s with
      | [] => []
      | c :: t =>
          if prefixb old s
          then new ++ replace_fuel f old new (skipn (List.length old) s)
          else c :: replace_fuel f old new t
      end
  end.

Definition py_replace (old new s : pystr) : pystr :=
  match old with
  | [] => new ++ flat_map (fun c => c :: new) s
  | _ => replace_fuel (List.length s) old new s
  end.

(** ** Code-fence cleanup of model responses *)

Definition fence : pystr := s2c "```".

(** [text.strip().replace('```' + lang, '').replace('```', '')];
    [lang] is [python] in identify_ingredients (line 62) and [json]
    in generate_recipe (line 110). *)
Definition strip_fences (lang : pystr) (text : pystr) : pystr :=
  py_replace fence [] (py_replace (fence ++ lang) [] (py_strip text)).

(** ** The environment of ai_processing.py *)

(** Result of [client.models.generate_content(...)]: the call raises, or
    it returns a response whose [.text] is a string or [None]. *)
Inductive api_result :=
| ApiRaise (e : pystr)
| ApiText (t : option pystr).

(** Content parts handed to the model ([types.Part.from_bytes] or a
    plain string). *)
Inductive part :=
| BytesPart (data mime : pystr)
| TextPart (t : pystr).

(** The external state the functions read. *)
Record world := {
  secret_key : option pystr;          (** [st.secrets['GEMINI_API_KEY']]; [None]: the lookup raises *)
  env_key : option pystr;             (** [os.getenv('GEMINI_API_KEY')] *)
  client_init : pystr -> option pystr; (** [genai.Client(api_key=k)]; [Some e]: raises [e] *)
  model_call : list part -> api_result (** [generate_content(contents=...)] *)
}.

(** A Streamlit [UploadedFile]: [getvalue()] and [.type]. *)
Record uploaded_file := {
  file_bytes : pystr;
  file_type : pystr
}.

(** ** A state and exception monad

    A computation threads the log of the model calls made so far (one
    entry per [generate_content] call, with its contents) and ends in a
    value or a raised Python exception (its message).  [print] calls are
    not modelled. *)

Inductive outcome (A : Type) :=
| Ret (a : A)
| Exc (e : pystr).
Arguments Ret {A} a.
Arguments Exc {A} e.

Definition calls := list (list part).
Definition M (A : Type) := calls -> outcome A * calls.

Definition ret {A} (a : A) : M A := fun tr => (Ret a, tr).
Definition raise {A} (e : pystr) : M A := fun tr => (Exc e, tr).
Definition bind {A B} (m : M A) (k : A -> M B) : M B :=
  fun tr => match m tr with
            | (Ret a, tr') => k a tr'
            | (Exc e, tr') => (Exc e, tr')
            end.
(** [try: m  except Exception as e: h(e)] *)
Definition try_except {A} (m : M A) (h : pystr -> M A) : M A :=
  fun tr => match m tr with
            | (Exc e, tr') => h e tr'
            | r => r
            end.

Notation "x <- m ;; k" := (bind m (fun x => k))
  (at level 61, m at next level, right associativity).

(** Python truthiness of a string. *)
Definition truthy (s : pystr) : bool :=
  match s with [] => false | _ => true end.

Definition secrets_get (w : world) : M pystr :=
  match secret_key w with
  | Some k => ret k
  | None => raise (s2c "KeyError: GEMINI_API_KEY")
  end.

Definition client_new (w : world) (api_key : pystr) : M unit :=
  match client_init w api_key with
  | None => ret tt
  | Some e => raise e
  end.

(** A model call is logged whether it raises or not. *)
Definition generate_content (w : world) (contents : list part) : M (option pystr) :=
  fun tr => match model_call w contents with
            | ApiRaise e => (Exc e, tr ++ [contents])
            | ApiText t => (Ret t, tr ++ [contents])
            end.

(** [response.text.strip()] raises when [.text] is [None]. *)
Definition response_text (t : option pystr) : M pystr :=
  match t with
  | Some s => ret s
  | None => raise (s2c "'NoneType' object has no attribute 'strip'")
  end.

(** ** ai_processing.py *)

(** [get_gemini_api_key] (lines 9-23). *)
Definition get_gemini_api_key (w : world) : M (option pystr) :=
  try_except
    (key <- secrets_get w ;;
     if truthy key then ret (Some key) else ret None)
    (fun _ => let key := env_key w in
              match key with
              | Some k => if truthy k then ret (Some k) else ret None
              | None => ret None
              end).

Definition identify_prompt : pystr := s2c "
    You are an expert food inventory specialist. Analyze the provided image.
    List every distinct food item and estimate the quantity or amount.
    Output ONLY a Python list of strings. Do not include any introductory or
    explanatory text.
    
    If the image contains absolutely no discernible food ingredients, 
    output the exact phrase: FAILURE: NO FOOD DETECTED
    
    Example format: ['3 large tomatoes', '1/2 red onion', '1 block of feta cheese', 'handful of basil leaves']
    ".

(** [identify_ingredients] (lines 26-66). *)
Definition identify_ingredients (w : world) (f : uploaded_file) : M pystr :=
  api_key <- get_gemini_api_key w ;;
  match api_key with
  | Some k =>
      if negb (truthy k)
      then ret (s2c "Error: Gemini API key is missing from Streamlit secrets.")
      else
      ok <- try_except (_ <- client_new w k ;; ret true) (fun _ => ret false) ;;
      if negb ok
      then ret (s2c "Error: AI client failed to initialize with key.")
      else
      let image_part := BytesPart (file_bytes f) (file_type f) in
      try_except
        (response <- generate_content w [image_part; TextPart identify_prompt] ;;
         text <- response_text response ;;
         ret (strip_fences (s2c "python") text))
        (fun e => ret (s2c "Error during API call: " ++ e))
  | None => ret (s2c "Error: Gemini API key is missing from Streamlit secrets.")
  end.

(** [str(n)] for a Python [int]. *)
Fixpoint digits_of (fuel : nat) (n : Z) (acc : pystr) : pystr :=
  match fuel with
  | O => acc
  | S f =>
      let acc' := (48 + n mod 10) :: acc in
      if n <? 10 then acc' else digits_of f (n / 10) acc'
  end.

Definition py_str_int (z : Z) : pystr :=
  let fuel := S (Z.to_nat (Z.log2 (Z.abs z))) in
  if z <? 0 then 45 :: digits_of fuel (- z) [] else digits_of fuel z [].

(** [sep.join(xs)] *)
Fixpoint py_join (sep : pystr) (xs : list pystr) : pystr :=
  match xs with
  | [] => []
  | [x] => x
  | x :: rest => x ++ sep ++ py_join sep rest
  end.

Definition sentinel : pystr := s2c "FAILURE: NO FOOD DETECTED".

(** The f-string [constraints] (lines 84-89). *)
Definition recipe_constraints (cuisine : pystr) (max_time : Z) (dietary_filters : list pystr) : pystr :=
  s2c "
    Constraints:
    * **Cuisine:** " ++ cuisine ++ s2c "
    * **Dietary:** " ++
  (match dietary_filters with
   | [] => s2c "None"
   | _ => py_join (s2c ", ") dietary_filters
   end) ++ s2c "
    * **Max Prep Time:** " ++ py_str_int max_time ++ s2c " minutes.
    ".

(** The f-string [prompt] (lines 91-103). *)
Definition recipe_prompt (ingredient_list_str cuisine : pystr) (max_time : Z)
    (dietary_filters : list pystr) : pystr :=
  s2c "
    You are a professional, creative recipe developer. Your task is to generate one unique,
    easy-to-follow recipe using ONLY the ingredients listed below.
    Assume the user has salt, pepper, and standard cooking oil.

    **Ingredients:** " ++ ingredient_list_str ++ s2c "

    **" ++ recipe_constraints cuisine max_time dietary_filters ++ s2c "**

    Format: Present the output in a JSON format. Do not include any other text besides the JSON object.
    Keys must include: `title`, `description`, `cuisine`, `prep_time_minutes`, `ingredients_used` (a list of strings), `instructions` (a list of strings), and a new key, **`narration_script`** (a single string containing a voiceover script summarizing the instructions in a cheerful, clear tone).
    Ensure `prep_time_minutes` adheres to the max time constraint.
    ".

Definition err_no_client : pystr := pylit "{'error': 'AI client not initialized.'}".
Definition err_client_init : pystr := pylit "{'error': 'AI client failed to initialize with key.'}".
Definition err_no_food : pystr :=
  pylit "{'error': 'Ingredient identification failed. No food was detected in the image.'}".
Definition err_api : pystr := pylit "{'error': 'Recipe generation failed due to API error.'}".

(** [generate_recipe] (lines 69-113). *)
Definition generate_recipe (w : world) (ingredient_list_str cuisine : pystr) (max_time : Z)
    (dietary_filters : list pystr) : M pystr :=
  api_key <- get_gemini_api_key w ;;
  match api_key with
  | None => ret err_no_client
  | Some k =>
      if negb (truthy k) then ret err_no_client else
      ok <- try_except (_ <- client_new w k ;; ret true) (fun _ => ret false) ;;
      if negb ok then ret err_client_init else
      if contains sentinel ingredient_list_str then ret err_no_food else
      let prompt := recipe_prompt ingredient_list_str cuisine max_time dietary_filters in
      try_except
        (response <- generate_content w [TextPart prompt] ;;
         text <- response_text response ;;
         ret (strip_fences (s2c "json") text))
        (fun _ => ret err_api)
  end.

(** [generate_recipe_video] (lines 117-122): both arguments are unused. *)
Definition valid_youtube_url : pystr := s2c "https://www.youtube.com/watch?v=kY3NfQGz29Q".

Definition generate_recipe_video {A B : Type} (recipe_title : A) (narration_script : B) : pystr :=
  valid_youtube_url.

(** ** A model of CPython's [json.loads] (the C scanner of _json.c)

    The text is first read into a syntax tree [jval], whose objects keep
    their members in source order (repeated keys included); [to_py] then
    builds the Python value, inserting the members of an object into a
    dict one after the other.  Numbers with a fraction or an exponent,
    [NaN] and [Infinity] become Python floats, kept as their lexeme.

    Scanning ends in a value, in a [JSONDecodeError], or in another
    exception that escapes [json.loads]: the [ValueError] of [int()] for
    an integer of more than 4300 digits ([sys.get_int_max_str_digits()])
    and the [RecursionError] of [Py_EnterRecursiveCall] once the nesting
    of objects and arrays exhausts the recursion levels left. *)

Inductive scanned (A : Type) :=
| Scanned (a : A)
| DecodeError
| OtherError (e : pystr).
Arguments Scanned {A} a.
Arguments DecodeError {A}.
Arguments OtherError {A} e.

Inductive jval :=
| JNull
| JBool (b : bool)
| JInt (z : Z)
| JFloat (lexeme : pystr)
| JStr (s : pystr)
| JArr (vs : list jval)
| JObj (ms : list (pystr * jval)).

Definition json_ws (c : Z) : bool := (c =? 32) || (c =? 9) || (c =? 10) || (c =? 13).

Fixpoint skip_ws (s : pystr) : pystr :=
  match s with
  | c :: t => if json_ws c then skip_ws t else s
  | [] => []
  end.

Definition is_digit (c : Z) : bool := (48 <=? c) && (c <=? 57).

Definition hex_val (c : Z) : option Z :=
  if is_digit c then Some (c - 48)
  else if (97 <=? c) && (c <=? 102) then Some (c - 87)
  else if (65 <=? c) && (c <=? 70) then Some (c - 55)
  else None.

Definition hex4 (a b c d : Z) : option Z :=
  match hex_val a, hex_val b, hex_val c, hex_val d with
  | Some x, Some y, Some z, Some u => Some (((x * 16 + y) * 16 + z) * 16 + u)
  | _, _, _, _ => None
  end.

Definition simple_escape (e : Z) : option Z :=
  if e =? 34 then Some 34 else if e =? 92 then Some 92 else if e =? 47 then Some 47
  else if e =? 98 then Some 8 else if e =? 102 then Some 12 else if e =? 110 then Some 10
  else if e =? 114 then Some 13 else if e =? 116 then Some 9 else None.

Definition cons_fst (c : Z) (r : option (pystr * pystr)) : option (pystr * pystr) :=
  match r with Some (s, rest) => Some (c :: s, rest) | None => None end.

Definition is_high_surrogate (u : Z) : bool := (55296 <=? u) && (u <=? 56319).
Definition is_low_surrogate (u : Z) : bool := (56320 <=? u) && (u <=? 57343).
Definition join_surrogates (hi lo : Z) : Z := 65536 + (hi - 55296) * 1024 + (lo - 56320).

(** [scanstring] with [strict=True], called after the opening quote:
    the decoded string and the text after the closing quote; [None] is a
    [JSONDecodeError]. *)
Fixpoint scan_string (s : pystr) : option (pystr * pystr) :=
  match s with
  | [] => None
  | c :: t =>
      if c =? 34 then Some ([], t)
      else if c =? 92 then
        match t with
        | [] => None
        | e :: t' =>
            if e =? 117 then
              match t' with
              | h1 :: h2 :: h3 :: h4 :: r =>
                  match hex4 h1 h2 h3 h4 with
                  | None => None
                  | Some u =>
                      if is_high_surrogate u then
                        match r with
                        | b1 :: b2 :: g1 :: g2 :: g3 :: g4 :: r2 =>
                            if (b1 =? 92) && (b2 =? 117) && negb (match r2 with [] => true | _ => false end)
                            then match hex4 g1 g2 g3 g4 with
                                 | None => None
                                 | Some u2 =>
                                     if is_low_surrogate u2
                                     then cons_fst (join_surrogates u u2) (scan_string r2)
                                     else cons_fst u (scan_string r)
                                 end
                            else cons_fst u (scan_string r)
                        | _ => cons_fst u (scan_string r)
                        end
                      else cons_fst u (scan_string r)
                  end
              | _ => None
              end
            else match simple_escape e with
                 | Some d => cons_fst d (scan_string t')
                 | None => None
                 end
        end
      else if c <? 32 then None
      else cons_fst c (scan_string t)
  end.

Fixpoint span_digits (s : pystr) : pystr * pystr :=
  match s with
  | c :: t => if is_digit c then let (ds, r) := span_digits t in (c :: ds, r) else ([], s)
  | [] => ([], [])
  end.

Definition digits_value (ds : pystr) : Z := fold_left (fun acc d => acc * 10 + (d - 48)) ds 0.

(** [sys.get_int_max_str_digits()] at its default. *)
Definition int_max_str_digits : nat := 4300.

Definition int_limit_error : pystr :=
  s2c "ValueError: Exceeds the limit (4300 digits) for integer string conversion".

(** The four parts of [_match_number_unicode]: an optional minus; [0] or
    a non-zero digit followed by digits; an optional fraction (a dot and
    at least one digit); an optional exponent ([e] or [E], an optional
    sign, at least one digit; without a digit the exponent is not
    consumed). *)
Definition number_sign (s : pystr) : bool * pystr :=
  match s with
  | c :: t => if c =? 45 then (true, t) else (false, s)
  | [] => (false, s)
  end.

Definition number_int (s1 : pystr) : option (pystr * pystr) :=
  match s1 with
  | c :: t =>
      if c =? 48 then Some ([c], t)
      else if (49 <=? c) && (c <=? 57) then let (ds, r) := span_digits t in Some (c :: ds, r)
      else None
  | [] => None
  end.

Definition number_frac (r1 : pystr) : pystr * pystr :=
  match r1 with
  | p :: d :: t =>
      if (p =? 46) && is_digit d
      then let (ds, r) := span_digits t in (p :: d :: ds, r)
      else ([], r1)
  | _ => ([], r1)
  end.

Definition exp_sign (t : pystr) : pystr * pystr :=
  match t with
  | x :: t' => if (x =? 45) || (x =? 43) then ([x], t') else ([], t)
  | [] => ([], t)
  end.

Definition number_exp (r2 : pystr) : pystr * pystr :=
  match r2 with
  | e :: t =>
      if (e =? 101) || (e =? 69) then
        let (sg, t') := exp_sign t in
        match span_digits t' with
        | ([], _) => ([], r2)
        | (ds, r) => (e :: sg ++ ds, r)
        end
      else ([], r2)
  | [] => ([], r2)
  end.

(** [_match_number_unicode]: an integer becomes [int(numstr)], which
    raises [ValueError] beyond 4300 digits; anything else a float. *)
Definition scan_number (s : pystr) : scanned (jval * pystr) :=
  let (neg, s1) := number_sign s in
  match number_int s1 with
  | None => DecodeError
  | Some (ip, r1) =>
      let (frac, r2) := number_frac r1 in
      let (expo, r3) := number_exp r2 in
      match frac, expo with
      | [], [] =>
          if Nat.ltb int_max_str_digits (List.length ip) then OtherError int_limit_error
          else Scanned (JInt (if neg then - digits_value ip else digits_value ip), r3)
      | _, _ => Scanned (JFloat ((if neg then [45] else []) ++ ip ++ frac ++ expo), r3)
      end
  end.

Definition recursion_error_object : pystr :=
  s2c "RecursionError: maximum recursion depth exceeded while decoding a JSON object from a unicode string".
Definition recursion_error_array : pystr :=
  s2c "RecursionError: maximum recursion depth exceeded while decoding a JSON array from a unicode string".

(** [_parse_object_unicode] after the first key's quote is reached:
    [value] scans one member value; the fuel bounds the number of
    members. *)
Fixpoint parse_members (value : pystr -> scanned (jval * pystr)) (g : nat) (s : pystr)
    (acc : list (pystr * jval)) : scanned (jval * pystr) :=
  match g with
  | O => DecodeError
  | S g' =>
      match s with
      | q :: t =>
          if q =? 34 then
            match scan_string t with
            | None => DecodeError
            | Some (k, r) =>
                match skip_ws r with
                | col :: r1 =>
                    if col =? 58 then
                      match value (skip_ws r1) with
                      | Scanned (v, r2) =>
                          match skip_ws r2 with
                          | d :: r3 =>
                              if d =? 125 then Scanned (JObj (acc ++ [(k, v)]), r3)
                              else if d =? 44 then parse_members value g' (skip_ws r3) (acc ++ [(k, v)])
                              else DecodeError
                          | [] => DecodeError
                          end
                      | DecodeError => DecodeError
                      | OtherError e => OtherError e
                      end
                    else DecodeError
                | [] => DecodeError
                end
            end
          else DecodeError
      | [] => DecodeError
      end
  end.

(** [_parse_array_unicode] after the first element is reached. *)
Fixpoint parse_elements (value : pystr -> scanned (jval * pystr)) (g : nat) (s : pystr)
    (acc : list jval) : scanned (jval * pystr) :=
  match g with
  | O => DecodeError
  | S g' =>
      match value s with
      | Scanned (v, r) =>
          match skip_ws r with
          | d :: r1 =>
              if d =? 93 then Scanned (JArr (acc ++ [v]), r1)
              else if d =? 44 then parse_elements value g' (skip_ws r1) (acc ++ [v])
              else DecodeError
          | [] => DecodeError
          end
      | DecodeError => DecodeError
      | OtherError e => OtherError e
      end
  end.

(** [scan_once_unicode] at the current position.  [rec] is the number of
    recursion levels left: entering an object or an array takes one.
    The fuel bounds the nesting depth and the number of members of each
    object or array ([length s + 1] suffices, as each value and each
    member consumes at least one code point). *)
Fixpoint parse_value (fuel rec : nat) (s : pystr) {struct fuel} : scanned (jval * pystr) :=
  match fuel with
  | O => DecodeError
  | S f =>
      match s with
      | [] => DecodeError
      | c :: t =>
          if c =? 34 then
            match scan_string t with
            | Some (str, r) => Scanned (JStr str, r)
            | None => DecodeError
            end
          else if c =? 123 then
            match rec with
            | O => OtherError recursion_error_object
            | S rec' =>
                match skip_ws t with
                | d :: r =>
                    if d =? 125 then Scanned (JObj [], r)
                    else parse_members (parse_value f rec') f (d :: r) []
                | [] => DecodeError
                end
            end
          else if c =? 91 then
            match rec with
            | O => OtherError recursion_error_array
            | S rec' =>
                match skip_ws t with
                | d :: r =>
                    if d =? 93 then Scanned (JArr [], r)
                    else parse_elements (parse_value f rec') f (d :: r) []
                | [] => DecodeError
                end
            end
          else if prefixb (s2c "null") s then Scanned (JNull, skipn 4 s)
          else if prefixb (s2c "true") s then Scanned (JBool true, skipn 4 s)
          else if prefixb (s2c "false") s then Scanned (JBool false, skipn 5 s)
          else if prefixb (s2c "NaN") s then Scanned (JFloat (s2c "NaN"), skipn 3 s)
          else if prefixb (s2c "Infinity") s then Scanned (JFloat (s2c "Infinity"), skipn 8 s)
          else if prefixb (s2c "-Infinity") s then Scanned (JFloat (s2c "-Infinity"), skipn 9 s)
          else scan_number s
      end
  end.

(** [JSONDecoder.decode]: a leading BOM is refused, whitespace is
    allowed around the value, nothing else may follow it. *)
Definition parse_json (rec : nat) (s : pystr) : scanned jval :=
  if prefixb [65279] s then DecodeError
  else match parse_value (S (List.length s)) rec (skip_ws s) with
       | Scanned (v, r) => match skip_ws r with [] => Scanned v | _ => DecodeError end
       | DecodeError => DecodeError
       | OtherError e => OtherError e
       end.

(** Python values; a dict is an association list in insertion order. *)
Inductive pyval :=
| PNone
| PBool (b : bool)
| PInt (z : Z)
| PFloat (lexeme : pystr)
| PStr (s : pystr)
| PList (l : list pyval)
| PDict (d : list (pystr * pyval)).

Definition dict := list (pystr * pyval).

(** [d[k] = v]: an existing key keeps its position and takes the new value. *)
Fixpoint dict_set (d : dict) (k : pystr) (v : pyval) : dict :=
  match d with
  | [] => [(k, v)]
  | (k', v') :: t => if list_eq_dec Z.eq_dec k' k then (k', v) :: t else (k', v') :: dict_set t k v
  end.

Fixpoint dict_get (d : dict) (k : pystr) : option pyval :=
  match d with
  | [] => None
  | (k', v) :: t => if list_eq_dec Z.eq_dec k' k then Some v else dict_get t k
  end.

(** [d.get(k, default)] *)
Definition dict_get_default (d : dict) (k : pystr) (default : pyval) : pyval :=
  match dict_get d k with Some v => v | None => default end.

Definition dict_of (kvs : list (pystr * pyval)) : dict :=
  fold_left (fun d kv => dict_set d (fst kv) (snd kv)) kvs [].

Fixpoint to_py (v : jval) : pyval :=
  match v with
  | JNull => PNone
  | JBool b => PBool b
  | JInt z => PInt z
  | JFloat l => PFloat l
  | JStr s => PStr s
  | JArr vs => PList (map to_py vs)
  | JObj ms => PDict (dict_of (map (fun '(k, x) => (k, to_py x)) ms))
  end.

(** [json.loads(s)] with [rec] recursion levels left. *)
Definition json_loads (rec : nat) (s : pystr) : scanned pyval :=
  match parse_json rec s with
  | Scanned v => Scanned (to_py v)
  | DecodeError => DecodeError
  | OtherError e => OtherError e
  end.

(** ** [json.dumps] with its default arguments

    [ensure_ascii=True] (CPython's [py_encode_basestring_ascii]), the
    separators [', '] and [': '], keys in insertion order.  The [repr] of
    a float is modelled by its lexeme. *)

Definition hex_digit (d : Z) : Z := if d <? 10 then 48 + d else 87 + d.

(** [\uXXXX] with lowercase hex digits ([Py_hexdigits]). *)
Definition u_escape (c : Z) : pystr :=
  [92; 117; hex_digit (Z.land (Z.shiftr c 12) 15); hex_digit (Z.land (Z.shiftr c 8) 15);
   hex_digit (Z.land (Z.shiftr c 4) 15); hex_digit (Z.land c 15)].

(** [ascii_escape_unichar]; a code point beyond the BMP is written as a
    surrogate pair ([Py_UNICODE_HIGH_SURROGATE], [Py_UNICODE_LOW_SURROGATE]). *)
Definition ascii_escape (c : Z) : pystr :=
  if c =? 92 then [92; 92]
  else if c =? 34 then [92; 34]
  else if c =? 8 then [92; 98]
  else if c =? 12 then [92; 102]
  else if c =? 10 then [92; 110]
  else if c =? 13 then [92; 114]
  else if c =? 9 then [92; 116]
  else if (32 <=? c) && (c <=? 126) then [c]
  else if 65536 <=? c then u_escape (55296 - 64 + Z.shiftr c 10) ++ u_escape (56320 + Z.land c 1023)
  else u_escape c.

Definition dumps_str (s : pystr) : pystr := [34] ++ flat_map ascii_escape s ++ [34].

Fixpoint dumps (v : pyval) : pystr :=
  match v with
  | PNone => s2c "null"
  | PBool b => if b then s2c "true" else s2c "false"
  | PInt z => py_str_int z
  | PFloat l => l
  | PStr s => dumps_str s
  | PList l => [91] ++ py_join (s2c ", ") (map dumps l) ++ [93]
  | PDict d => [123] ++ py_join (s2c ", ") (map (fun '(k, x) => dumps_str k ++ s2c ": " ++ dumps x) d) ++ [125]
  end.

(** Values [json.dumps] writes and [json.loads] reads back: integers of
    at most 4300 digits ([str()] of a longer one raises), finite floats,
    strings of code points in which no high surrogate is directly
    followed by a low one (the pair would be read back as one code
    point), and dicts, whose keys are distinct. *)
Fixpoint valid_text (s : pystr) : bool :=
  match s with
  | [] => true
  | c :: t =>
      (0 <=? c) && (c <=? 1114111) &&
      match t with
      | c' :: _ => negb (is_high_surrogate c && is_low_surrogate c')
      | [] => true
      end &&
      valid_text t
  end.

Definition float_lexeme_ok (l : pystr) : bool :=
  match scan_number l with
  | Scanned (JFloat l', []) => if list_eq_dec Z.eq_dec l' l then true else false
  | _ => false
  end.

Fixpoint keys_distinct (ks : list pystr) : bool :=
  match ks with
  | [] => true
  | k :: t => negb (existsb (fun k' => if list_eq_dec Z.eq_dec k k' then true else false) t) &&
              keys_distinct t
  end.

Fixpoint json_value_ok (v : pyval) : bool :=
  match v with
  | PNone | PBool _ => true
  | PInt z => Nat.leb (List.length (py_str_int (Z.abs z))) int_max_str_digits
  | PFloat l => float_lexeme_ok l
  | PStr s => valid_text s
  | PList l => forallb json_value_ok l
  | PDict d => forallb (fun '(k, x) => valid_text k && json_value_ok x) d && keys_distinct (map fst d)
  end.

(** Nesting depth of lists and dicts. *)
Fixpoint depth (v : pyval) : nat :=
  match v with
  | PList l => S (list_max (map depth l))
  | PDict d => S (list_max (map (fun '(_, x) => depth x) d))
  | _ => O
  end.

(** What may follow a value inside a JSON text written by [dumps]. *)
Definition value_end (rest : pystr) : bool :=
  match rest with
  | [] => true
  | c :: _ => (c =? 44) || (c =? 93) || (c =? 125)
  end.

(** A high surrogate escape followed by this text would be joined with
    the next escape. *)
Definition low_ahead (r : pystr) : bool :=
  match r with
  | b1 :: b2 :: g1 :: g2 :: g3 :: g4 :: r2 =>
      (b1 =? 92) && (b2 =? 117) && negb (match r2 with [] => true | _ => false end) &&
      match hex4 g1 g2 g3 g4 with Some u2 => is_low_surrogate u2 | None => true end
  | _ => false
  end.

(** A scanned number starts with a digit, or with a minus and a digit. *)
Definition number_start (s : pystr) : Prop :=
  exists c t, s = c :: t /\
    (is_digit c = true \/ (c = 45 /\ exists c2 t2, t = c2 :: t2 /\ is_digit c2 = true)).

(** ** Python truthiness of a parsed value *)

Definition exp_value (expo : pystr) : Z :=
  match expo with
  | _ :: t =>
      match t with
      | x :: t' => if x =? 45 then - digits_value t' else if x =? 43 then digits_value t' else digits_value t
      | [] => 0
      end
  | [] => 0
  end.

(** [float(lexeme) == 0.0]: the decimal value rounds to zero exactly when
    it is at most 2^-1075, half the least subnormal double (the tie
    rounds to the even zero).  [NaN] and [Infinity] are not zero. *)
Definition float_is_zero (l : pystr) : bool :=
  let (_, s1) := number_sign l in
  match number_int s1 with
  | None => false
  | Some (ip, r1) =>
      let (frac, r2) := number_frac r1 in
      let (expo, _) := number_exp r2 in
      let fd := skipn 1 frac in
      let sig := digits_value (ip ++ fd) in
      let e := exp_value expo - Z.of_nat (List.length fd) in
      if sig =? 0 then true
      else if 0 <=? e then false
      else if Z.of_nat (List.length (ip ++ fd)) + e <=? -324 then true
      else sig * 2 ^ 1075 <=? 10 ^ (- e)
  end.

(** ** streamlit_app.py: parsing and displaying the recipe *)

(** Outcome of lines 146-155 for [recipe_json_str]. *)
Inductive parse_step :=
| Stored (recipe_data : pyval) (narration_script : pyval)
    (** [st.session_state.recipe_data] and [.narration_script] are set *)
| ParseFailed
    (** [json.JSONDecodeError] caught; [recipe_data] is reset to [None] *)
| ParseRaised (e : pystr)
    (** another exception escapes the [try] *).

Definition attribute_error_get : pystr := s2c "AttributeError: object has no attribute 'get'".

(** Lines 146-155, with [rec] recursion levels left for [json.loads]. *)
Definition app_parse (rec : nat) (recipe_json_str : pystr) : parse_step :=
  match json_loads rec recipe_json_str with
  | DecodeError => ParseFailed
  | OtherError e => ParseRaised e
  | Scanned recipe_data =>
      match recipe_data with
      | PDict d =>
          Stored recipe_data
            (dict_get_default d (s2c "narration_script") (PStr (s2c "No script generated.")))
      | _ => ParseRaised attribute_error_get
      end
  end.

(** What lines 161-183 render for one recipe. *)
Record recipe_view := {
  v_title : pyval;
  v_prep_time : pyval;
  v_cuisine : pyval;
  v_description : pyval;
  v_ingredients : pyval;
  v_instructions : pyval
}.

Inductive display_step :=
| NotShown
| Shown (v : recipe_view)
| DisplayRaised (e : pystr).

(** Python truthiness of a value. *)
Definition py_truthy (v : pyval) : bool :=
  match v with
  | PNone => false
  | PBool b => b
  | PInt z => negb (z =? 0)
  | PFloat l => negb (float_is_zero l)
  | PStr s => truthy s
  | PList l => match l with [] => false | _ => true end
  | PDict d => match d with [] => false | _ => true end
  end.

(** [st.metric] accepts an int, a float, a str or [None] as its value
    (a bool is an int) and raises [TypeError] for anything else. *)
Definition metric_accepts (v : pyval) : bool :=
  match v with
  | PList _ | PDict _ => false
  | _ => true
  end.

(** [for i in v] needs an iterable: a str, a list or a dict. *)
Definition py_iterable (v : pyval) : bool :=
  match v with
  | PStr _ | PList _ | PDict _ => true
  | _ => false
  end.

Definition metric_type_error : pystr :=
  s2c "TypeError: value only accepts: int, float, str, or None".
Definition not_iterable_error : pystr := s2c "TypeError: object is not iterable".

(** Lines 158-183; [cuisine] is the sidebar selection.  The f-strings of
    lines 162, 165 and 168 format any value; [st.metric] at line 166 and
    the loops of lines 177 and 181 may raise. *)
Definition display (recipe_data : pyval) (cuisine : pystr) : display_step :=
  if negb (py_truthy recipe_data) then NotShown else
  match recipe_data with
  | PDict data =>
      let title := dict_get_default data (s2c "title") (PStr (s2c "A Delightful Creation")) in
      let prep_time := dict_get_default data (s2c "prep_time_minutes") (PStr (s2c "?")) in
      let cuisine_v := dict_get_default data (s2c "cuisine") (PStr cuisine) in
      if negb (metric_accepts cuisine_v) then DisplayRaised metric_type_error else
      let description := dict_get_default data (s2c "description") (PStr []) in
      let ingredients_list := dict_get_default data (s2c "ingredients_used") (PList []) in
      if negb (py_iterable ingredients_list) then DisplayRaised not_iterable_error else
      let instructions_list := dict_get_default data (s2c "instructions") (PList []) in
      if negb (py_iterable instructions_list) then DisplayRaised not_iterable_error else
      Shown {| v_title := title;
               v_prep_time := prep_time;
               v_cuisine := cuisine_v;
               v_description := description;
               v_ingredients := ingredients_list;
               v_instructions := instructions_list |}
  | _ => DisplayRaised attribute_error_get
  end.

(** The view of a recipe none of whose keys is present. *)
Definition placeholder_view (cuisine : pystr) : recipe_view :=
  {| v_title := PStr (s2c "A Delightful Creation");
     v_prep_time := PStr (s2c "?");
     v_cuisine := PStr cuisine;
     v_description := PStr [];
     v_ingredients := PList [];
     v_instructions := PList [] |}.

Definition recipe_keys : list pystr :=
  map s2c ["title"; "description"; "cuisine"; "prep_time_minutes";
           "ingredients_used"; "instructions"; "narration_script"]%string.

(** ** streamlit_app.py: one run of the script *)

(** [st.session_state] (lines 101-104 create it with three [None]s). *)
Record session := {
  recipe_data : pyval;
  video_url : option pystr;
  narration_script : pyval
}.

Definition init_session : session :=
  {| recipe_data := PNone; video_url := None; narration_script := PNone |}.

Definition set_recipe_data (s : session) (v : pyval) : session :=
  {| recipe_data := v; video_url := video_url s; narration_script := narration_script s |}.

Definition set_narration_script (s : session) (v : pyval) : session :=
  {| recipe_data := recipe_data s; video_url := video_url s; narration_script := v |}.

(** What the page itself brings to a run. *)
Record page_env := {
  st_image : uploaded_file -> option pystr;
    (** [st.image(uploaded_file, ...)] (line 113); [Some e]: the upload
        cannot be decoded as an image and [e] is raised *)
  json_budget : nat
    (** recursion levels left to [json.loads] at line 147 *)
}.

(** Which branch of lines 107-155 a run took. *)
Inductive app_branch :=
| NotRequested                          (** button not pressed, or no file *)
| NoFoodDetected (ing : pystr)          (** lines 119-121 *)
| TechnicalError (ing : pystr)          (** lines 122-124 *)
| RecipeParsed (ing r : pystr)          (** lines 146-149 *)
| RecipeUnparsable (ing r : pystr)      (** lines 151-155 *)
| NothingIdentified (ing : pystr)       (** no branch of lines 119-125 applies *).

(** Lines 107-155: the state after the run, the model calls made, and
    the branch taken or the exception that escaped the script.  The
    preview of lines 127-133 catches everything it raises and changes
    nothing. *)
Definition app_generate (w : world) (pe : page_env) (generate_button : bool) (uploaded : option uploaded_file)
    (cuisine : pystr) (max_time : Z) (dietary_filters : list pystr)
    (s : session) (tr : calls) : outcome app_branch * session * calls :=
  match generate_button, uploaded with
  | true, Some f =>
      match st_image pe f with
      | Some e => (Exc e, s, tr)
      | None =>
      match identify_ingredients w f tr with
      | (Exc e, tr1) => (Exc e, s, tr1)
      | (Ret ingredient_list_str, tr1) =>
          if truthy ingredient_list_str && contains sentinel ingredient_list_str then
            (Ret (NoFoodDetected ingredient_list_str), set_recipe_data s PNone, tr1)
          else if contains (s2c "Error") ingredient_list_str then
            (Ret (TechnicalError ingredient_list_str), set_recipe_data s PNone, tr1)
          else if truthy ingredient_list_str then
            match generate_recipe w ingredient_list_str cuisine max_time dietary_filters tr1 with
            | (Exc e, tr2) => (Exc e, s, tr2)
            | (Ret recipe_json_str, tr2) =>
                match json_loads (json_budget pe) recipe_json_str with
                | DecodeError =>
                    (Ret (RecipeUnparsable ingredient_list_str recipe_json_str),
                     set_recipe_data s PNone, tr2)
                | OtherError e => (Exc e, s, tr2)
                | Scanned recipe_data =>
                    let s1 := set_recipe_data s recipe_data in
                    match recipe_data with
                    | PDict d =>
                        (Ret (RecipeParsed ingredient_list_str recipe_json_str),
                         set_narration_script s1
                           (dict_get_default d (s2c "narration_script") (PStr (s2c "No script generated."))),
                         tr2)
                    | _ => (Exc attribute_error_get, s1, tr2)
                    end
                end
            end
          else (Ret (NothingIdentified ingredient_list_str), s, tr1)
      end
      end
  | _, _ => (Ret NotRequested, s, tr)
  end.

(** What lines 158-206 put on the page. *)
Inductive screen :=
| RecipeScreen (d : display_step)
| UploadWarning
| Blank.

Definition render (s : session) (generate_button : bool) (cuisine : pystr) : screen :=
  if py_truthy (recipe_data s) then RecipeScreen (display (recipe_data s) cuisine)
  else if generate_button then UploadWarning
  else Blank.

(** ** Derived notions used in the statements *)

(** The key [get_gemini_api_key] resolves in a world. *)
Definition key_resolved (w : world) : option pystr :=
  match fst (get_gemini_api_key w []) with Ret k => k | Exc _ => None end.

(** A string that [json.loads] reads as a dict with the single key
    [error] bound to a string (one recursion level suffices for it). *)
Definition is_json_error_object (r : pystr) : bool :=
  match json_loads 1 r with
  | Scanned (PDict [(k, PStr _)]) => if list_eq_dec Z.eq_dec k (s2c "error") then true else false
  | _ => false
  end.

(** The contents identify_ingredients sends to the model. *)
Definition identify_contents (f : uploaded_file) : list part :=
  [BytesPart (file_bytes f) (file_type f); TextPart identify_prompt].

Definition call_failed (a : api_result) : bool :=
  match a with
  | ApiRaise _ => true
  | ApiText None => true
  | ApiText (Some _) => false
  end.

(** A missing key, a failing client constructor or a failing model call
    for [contents]. *)
Definition transport_failure (w : world) (contents : list part) : bool :=
  match key_resolved w with
  | None => true
  | Some k =>
      match client_init w k with
      | Some _ => true
      | None => call_failed (model_call w contents)
      end
  end.

(** Sample worlds. *)
Definition world_of (secret env : option pystr) (api : api_result) : world :=
  {| secret_key := secret; env_key := env; client_init := fun _ => None;
     model_call := fun _ => api |}.

(** A 1x1 grayscale PNG image. *)
Definition sample_png : pystr :=
  [137; 80; 78; 71; 13; 10; 26; 10; 0; 0; 0; 13; 73; 72; 68; 82; 0; 0; 0; 1; 0; 0; 0; 1;
   8; 0; 0; 0; 0; 58; 126; 155; 85; 0; 0; 0; 10; 73; 68; 65; 84; 120; 156; 99; 96; 0; 0;
   0; 2; 0; 1; 72; 175; 164; 113; 0; 0; 0; 0; 73; 69; 78; 68; 174; 66; 96; 130].

Definition sample_upload : uploaded_file :=
  {| file_bytes := sample_png; file_type := s2c "image/png" |}.

(** A page on which [st.image] displays every upload (the sample upload
    is a valid PNG), with the recursion levels Python leaves to a script. *)
Definition sample_page : page_env :=
  {| st_image := fun _ => None; json_budget := 900 |}.

(** The contents generate_recipe sends to the model. *)
Definition recipe_contents (ing cuisine : pystr) (max_time : Z) (dietary_filters : list pystr) : list part :=
  [TextPart (recipe_prompt ing cuisine max_time dietary_filters)].

(** A world whose model answers the image request with [ident] and the
    text-only recipe request with [recipe]. *)
Definition world_two (ident recipe : api_result) : world :=
  {| secret_key := Some (s2c "key"); env_key := None; client_init := fun _ => None;
     model_call := fun c => match c with [TextPart _] => recipe | _ => ident end |}.

(** A recipe record as generate_recipe is asked to produce it, with a
    non-ASCII description, an emoji beyond the BMP and a float. *)
Definition sample_record : dict :=
  [(s2c "title", PStr (s2c "Tomato Omelette"));
   (s2c "description", PStr ([81; 117; 105; 99; 107; 32; 38; 32; 233; 97; 115; 121; 32; 128512]));
   (s2c "cuisine", PStr (s2c "Italian"));
   (s2c "prep_time_minutes", PInt 15);
   (s2c "ingredients_used", PList [PStr (s2c "2 eggs"); PStr (s2c "1 tomato")]);
   (s2c "instructions", PList [PStr (s2c "Beat the eggs."); PStr (pylit "Say 'cheese'.")]);
   (s2c "narration_script", PStr (s2c "Let us cook!"));
   (s2c "rating", PFloat (s2c "4.5"))].

(** A reply holding an integer of 4301 digits. *)
Definition long_int_reply : pystr := [91] ++ repeat 49 4301 ++ [93].

(** * Proofs *)

(** ** Strings: prefixes, containment, strip and replace *)

Lemma prefixb_nil (s : pystr) : prefixb [] s = true.
Proof. reflexivity. Qed.

Lemma prefixb_cons (x y : Z) (p s : pystr) : prefixb (x :: p) (y :: s) = (x =? y) && prefixb p s.
Proof. reflexivity. Qed.

Lemma contains_cons (p : pystr) (c : Z) (s : pystr) :
  contains p (c :: s) = prefixb p (c :: s) || contains p s.
Proof. reflexivity. Qed.

Lemma prefixb_app_l (p q s : pystr) : prefixb (p ++ q) s = true -> prefixb p s = true.
Proof.
  revert s; induction p as [|x p IH]; intros s H; [reflexivity|].
  destruct s as [|y s]; [discriminate|].
  simpl in *. apply andb_true_iff in H as [H1 H2]. rewrite H1, (IH _ H2). reflexivity.
Qed.

Lemma prefixb_app_r (p a b : pystr) : prefixb p a = true -> prefixb p (a ++ b) = true.
Proof.
  revert a; induction p as [|x p IH]; intros a H; [reflexivity|].
  destruct a as [|y a]; [discriminate|].
  simpl in *. apply andb_true_iff in H as [H1 H2]. rewrite H1, (IH _ H2). reflexivity.
Qed.

Lemma contains_app (p a b : pystr) :
  contains p (a ++ b) = false -> contains p a = false /\ contains p b = false.
Proof.
  induction a as [|x a IH]; intros H; simpl in *.
  - split; [|exact H].
    destruct p as [|y p]; [destruct b; discriminate|reflexivity].
  - apply orb_false_iff in H as [H1 H2].
    destruct (IH H2) as [Ha Hb]. split; [|exact Hb].
    rewrite Ha, orb_false_r.
    destruct (prefixb p (x :: a)) eqn:E; [|reflexivity].
    pose proof (prefixb_app_r _ (x :: a) b E) as E'. simpl in E'.
    rewrite E' in H1. discriminate.
Qed.

Lemma contains_longer (q l s : pystr) : contains q s = false -> contains (q ++ l) s = false.
Proof.
  induction s as [|c t IH]; intros H; simpl in *;
    apply orb_false_iff in H as [H1 H2]; apply orb_false_iff; split.
  - destruct (prefixb (q ++ l) []) eqn:E; [|reflexivity].
    rewrite (prefixb_app_l _ _ _ E) in H1. discriminate.
  - reflexivity.
  - destruct (prefixb (q ++ l) (c :: t)) eqn:E; [|reflexivity].
    rewrite (prefixb_app_l _ _ _ E) in H1. discriminate.
  - exact (IH H2).
Qed.

Lemma lstrip_suffix (s : pystr) : exists w, s = w ++ lstrip s.
Proof.
  induction s as [|c t [w IH]]; [exists []; reflexivity|].
  simpl. destruct (py_isspace c).
  - exists (c :: w). simpl. rewrite <- IH. reflexivity.
  - exists []. reflexivity.
Qed.

Lemma rstrip_prefix (s : pystr) : exists w, s = rstrip s ++ w.
Proof.
  induction s as [|c t [w IH]]; [exists []; reflexivity|].
  simpl. destruct (rstrip t) as [|r0 r] eqn:E.
  - destruct (py_isspace c); [exists (c :: t)|exists t]; reflexivity.
  - exists w. simpl. rewrite IH at 1. reflexivity.
Qed.

Lemma contains_strip (p s : pystr) : contains p s = false -> contains p (py_strip s) = false.
Proof.
  intros H. unfold py_strip.
  destruct (lstrip_suffix s) as [w1 E1].
  rewrite E1 in H. apply contains_app in H as [_ H].
  destruct (rstrip_prefix (lstrip s)) as [w2 E2].
  rewrite E2 in H. apply contains_app in H as [H _]. exact H.
Qed.

Lemma replace_fuel_enough (n m : nat) (old new s : pystr) :
  old <> [] -> (List.length s <= n)%nat -> (List.length s <= m)%nat ->
  replace_fuel n old new s = replace_fuel m old new s.
Proof.
  intros Hold. revert m s.
  induction n as [|n IH]; intros m s Hn Hm.
  - destruct s; [|simpl in Hn; lia]. destruct m; reflexivity.
  - destruct m as [|m].
    + destruct s; [reflexivity|simpl in Hm; lia].
    + destruct s as [|c t]; [reflexivity|]. simpl.
      destruct (prefixb old (c :: t)).
      * f_equal. destruct old as [|o os]; [congruence|].
        apply IH; simpl in *; rewrite length_skipn; lia.
      * f_equal. apply IH; simpl in *; lia.
Qed.

Lemma py_replace_nil (old new : pystr) : old <> [] -> py_replace old new [] = [].
Proof. intros H. destruct old; [congruence|reflexivity]. Qed.

Lemma py_replace_cons (old new : pystr) (c : Z) (t : pystr) :
  old <> [] ->
  py_replace old new (c :: t) =
  if prefixb old (c :: t)
  then new ++ py_replace old new (skipn (List.length old) (c :: t))
  else c :: py_replace old new t.
Proof.
  intros H. unfold py_replace. destruct old as [|o os] eqn:Eo; [congruence|].
  rewrite <- Eo. simpl List.length at 1. cbn [replace_fuel].
  destruct (prefixb old (c :: t)); f_equal.
  apply replace_fuel_enough; [congruence| |lia].
  subst old. simpl. rewrite length_skipn. lia.
Qed.

Lemma py_replace_absent (old new s : pystr) :
  old <> [] -> contains old s = false -> py_replace old new s = s.
Proof.
  intros Hold. induction s as [|c t IH]; intros H.
  - apply py_replace_nil; exact Hold.
  - rewrite py_replace_cons by exact Hold.
    simpl in H. apply orb_false_iff in H as [H1 H2].
    rewrite H1, (IH H2). reflexivity.
Qed.

Lemma fence_eq : fence = [96; 96; 96].
Proof. reflexivity. Qed.

(** After [replace('```', '')] no fence is left: a fence can only reappear
    across a removed one if backticks precede it, and the scan from the
    left would have removed those first. *)
Lemma replace_fence_no_fence (n : nat) (s : pystr) :
  (List.length s <= n)%nat ->
  contains fence (py_replace fence [] s) = false /\
  (prefixb [96] (py_replace fence [] s) = true -> prefixb [96] s = true) /\
  (prefixb [96; 96] (py_replace fence [] s) = true -> prefixb [96; 96] s = true).
Proof.
  assert (Hf : fence <> []) by (rewrite fence_eq; discriminate).
  revert s; induction n as [|n IH]; intros s Hlen.
  - destruct s; [|simpl in Hlen; lia].
    rewrite py_replace_nil by exact Hf. repeat split; discriminate.
  - destruct s as [|c t].
    + rewrite py_replace_nil by exact Hf. repeat split; discriminate.
    + rewrite py_replace_cons by exact Hf.
      destruct (prefixb fence (c :: t)) eqn:Hp.
      * destruct (IH (skipn (List.length fence) (c :: t))) as [H1 _].
        { rewrite length_skipn, fence_eq. simpl in *. lia. }
        simpl app. split; [exact H1|].
        rewrite fence_eq in Hp.
        split; intros _;
          [apply (prefixb_app_l [96] [96; 96])|apply (prefixb_app_l [96; 96] [96])];
          exact Hp.
      * destruct (IH t) as [H1 [H2 H3]]; [simpl in Hlen; lia|].
        set (r := py_replace fence [] t) in *. clearbody r.
        rewrite fence_eq in Hp, H1 |- *.
        rewrite contains_cons, H1, orb_false_r.
        rewrite !prefixb_cons, !prefixb_nil in *.
        repeat split.
        -- destruct (96 =? c); [|reflexivity]. rewrite andb_true_l in Hp |- *.
           destruct (prefixb [96; 96] r) eqn:E; [|reflexivity].
           rewrite (H3 eq_refl) in Hp. discriminate.
        -- intros H. exact H.
        -- intros H. apply andb_true_iff in H as [Hc H].
           rewrite Hc, andb_true_l. apply H2. exact H.
Qed.

(** ** The credential lookup and the client constructor never raise *)

Lemma get_gemini_api_key_eq (w : world) (tr : calls) :
  get_gemini_api_key w tr = (Ret (key_resolved w), tr).
Proof.
  unfold key_resolved, get_gemini_api_key, try_except, bind, secrets_get.
  destruct (secret_key w) as [k|]; simpl.
  - destruct (truthy k); reflexivity.
  - destruct (env_key w) as [k|]; [destruct (truthy k)|]; reflexivity.
Qed.

Lemma key_resolved_truthy (w : world) (k : pystr) : key_resolved w = Some k -> truthy k = true.
Proof.
  unfold key_resolved, get_gemini_api_key, try_except, bind, secrets_get.
  destruct (secret_key w) as [k'|]; simpl.
  - destruct (truthy k') eqn:E; simpl; congruence.
  - destruct (env_key w) as [k'|]; [destruct (truthy k') eqn:E|]; simpl; congruence.
Qed.

Lemma client_step_eq (w : world) (k : pystr) (tr : calls) :
  try_except (_ <- client_new w k ;; ret true) (fun _ => ret false) tr =
  (Ret (match client_init w k with None => true | Some _ => false end), tr).
Proof. unfold try_except, bind, client_new. destruct (client_init w k); reflexivity. Qed.

Lemma generate_recipe_early (w : world) (ing cuisine : pystr) (max_time : Z)
    (dietary_filters : list pystr) (tr : calls) :
  contains sentinel ing = true ->
  generate_recipe w ing cuisine max_time dietary_filters tr =
  (Ret (match key_resolved w with
        | None => err_no_client
        | Some k => match client_init w k with None => err_no_food | Some _ => err_client_init end
        end), tr).
Proof.
  intros Hs. unfold generate_recipe, bind, try_except, client_new, ret.
  rewrite get_gemini_api_key_eq.
  destruct (key_resolved w) as [k|] eqn:Ek; [|reflexivity].
  rewrite (key_resolved_truthy _ _ Ek). simpl negb. cbv iota.
  destruct (client_init w k); simpl; [reflexivity|].
  rewrite Hs. reflexivity.
Qed.

Lemma err_strings_are_json_errors :
  Forall (fun r => is_json_error_object r = true) [err_no_client; err_client_init; err_no_food; err_api].
Proof. repeat constructor; vm_compute; reflexivity. Qed.

(** ** C2 *)

(** C2 (counterexample): with the response ["```" newline "x"], one pass
    of the cleanup of identify_ingredients gives [newline "x"], a second
    pass strips the newline: the cleanup is not idempotent. *)
Lemma strip_fences_not_idempotent :
  strip_fences (s2c "python") (strip_fences (s2c "python") (fence ++ [10; 120])) <>
  strip_fences (s2c "python") (fence ++ [10; 120]).
Proof. vm_compute. discriminate. Qed.

(** C2 (amended): for either language tag and any response, the cleaned
    text contains no fence marker, and cleaning it again only strips
    whitespace at its ends; so a second pass changes the text exactly
    when the first pass leaves whitespace at one of its ends. *)
Theorem strip_fences_twice (lang s : pystr) :
  contains fence (strip_fences lang s) = false /\
  strip_fences lang (strip_fences lang s) = py_strip (strip_fences lang s) /\
  (strip_fences lang (strip_fences lang s) = strip_fences lang s <->
   py_strip (strip_fences lang s) = strip_fences lang s).
Proof.
  assert (Hnf : contains fence (strip_fences lang s) = false).
  { unfold strip_fences at 1. apply (replace_fence_no_fence _ _ (le_n _)). }
  set (r := strip_fences lang s) in *. clearbody r.
  assert (Heq : strip_fences lang r = py_strip r).
  { unfold strip_fences.
    assert (Hs : contains fence (py_strip r) = false) by (apply contains_strip; exact Hnf).
    rewrite (py_replace_absent (fence ++ lang)).
    - apply py_replace_absent; [rewrite fence_eq; discriminate|exact Hs].
    - rewrite fence_eq; discriminate.
    - apply contains_longer. exact Hs. }
  split; [exact Hnf|]. split; [exact Heq|]. rewrite Heq. tauto.
Qed.

(** ** C1 *)

(** C1 (counterexample): with no key in either source, generate_recipe
    called on the sentinel returns the missing-client error, not the
    no-food error object: the key is checked before the sentinel. *)
Lemma generate_recipe_sentinel_without_key :
  fst (generate_recipe (world_of None None (ApiText (Some []))) sentinel (s2c "Any") 30 [] [])
  <> Ret err_no_food.
Proof. vm_compute. intros H. discriminate H. Qed.

(** C1 (amended): for an ingredient string containing the sentinel,
    generate_recipe makes no model call; it returns the no-food error
    object whenever a key resolves and the client is constructed, and
    otherwise the missing-client or client-initialisation error object. *)
Theorem generate_recipe_sentinel (w : world) (ing cuisine : pystr) (max_time : Z)
    (dietary_filters : list pystr) (tr : calls) :
  contains sentinel ing = true ->
  snd (generate_recipe w ing cuisine max_time dietary_filters tr) = tr /\
  (forall k, key_resolved w = Some k -> client_init w k = None ->
     fst (generate_recipe w ing cuisine max_time dietary_filters tr) = Ret err_no_food) /\
  (key_resolved w = None ->
     fst (generate_recipe w ing cuisine max_time dietary_filters tr) = Ret err_no_client) /\
  (forall k e, key_resolved w = Some k -> client_init w k = Some e ->
     fst (generate_recipe w ing cuisine max_time dietary_filters tr) = Ret err_client_init).
Proof.
  intros Hs. rewrite (generate_recipe_early _ _ _ _ _ _ Hs). simpl.
  split; [reflexivity|].
  split; [intros k Hk Hc; rewrite Hk, Hc; reflexivity|].
  split; [intros Hk; rewrite Hk; reflexivity|].
  intros k e Hk Hc. rewrite Hk, Hc. reflexivity.
Qed.

Lemma generate_recipe_sentinel_witness :
  contains sentinel sentinel = true /\
  snd (generate_recipe (world_of (Some (s2c "key")) None (ApiText (Some []))) sentinel (s2c "Any") 30 [] []) = [] /\
  (forall k, key_resolved (world_of (Some (s2c "key")) None (ApiText (Some []))) = Some k ->
     client_init (world_of (Some (s2c "key")) None (ApiText (Some []))) k = None ->
     fst (generate_recipe (world_of (Some (s2c "key")) None (ApiText (Some []))) sentinel (s2c "Any") 30 [] [])
     = Ret err_no_food) /\
  (key_resolved (world_of (Some (s2c "key")) None (ApiText (Some []))) = None ->
     fst (generate_recipe (world_of (Some (s2c "key")) None (ApiText (Some []))) sentinel (s2c "Any") 30 [] [])
     = Ret err_no_client) /\
  (forall k e, key_resolved (world_of (Some (s2c "key")) None (ApiText (Some []))) = Some k ->
     client_init (world_of (Some (s2c "key")) None (ApiText (Some []))) k = Some e ->
     fst (generate_recipe (world_of (Some (s2c "key")) None (ApiText (Some []))) sentinel (s2c "Any") 30 [] [])
     = Ret err_client_init).
Proof.
  split; [vm_compute; reflexivity|].
  apply generate_recipe_sentinel. vm_compute. reflexivity.
Defined.

(** ** C3 *)

(** C3: when no key resolves, identify_ingredients returns a string
    containing [Error] and generate_recipe a JSON error object; neither
    raises and neither calls the model (the call log is unchanged). *)
Theorem missing_key_errors (w : world) (f : uploaded_file) (ing cuisine : pystr) (max_time : Z)
    (dietary_filters : list pystr) (tr : calls) :
  fst (get_gemini_api_key w tr) = Ret None ->
  (exists r, identify_ingredients w f tr = (Ret r, tr) /\ contains (s2c "Error") r = true) /\
  (exists r, generate_recipe w ing cuisine max_time dietary_filters tr = (Ret r, tr) /\
             is_json_error_object r = true).
Proof.
  rewrite get_gemini_api_key_eq. simpl. intros Hk. injection Hk as Hk.
  split.
  - eexists. unfold identify_ingredients, bind. rewrite get_gemini_api_key_eq, Hk.
    split; [reflexivity|]. vm_compute. reflexivity.
  - eexists. unfold generate_recipe, bind. rewrite get_gemini_api_key_eq, Hk.
    split; [reflexivity|]. vm_compute. reflexivity.
Qed.

Lemma missing_key_errors_witness :
  fst (get_gemini_api_key (world_of None None (ApiText (Some []))) []) = Ret None /\
  (exists r, identify_ingredients (world_of None None (ApiText (Some []))) sample_upload [] = (Ret r, []) /\
             contains (s2c "Error") r = true) /\
  (exists r, generate_recipe (world_of None None (ApiText (Some []))) (s2c "['2 eggs']") (s2c "Italian") 30 [] []
             = (Ret r, []) /\ is_json_error_object r = true).
Proof.
  split; [vm_compute; reflexivity|].
  apply missing_key_errors. vm_compute. reflexivity.
Defined.

(** ** C4 *)

(** C4: identify_ingredients and generate_recipe never raise; when the key
    is missing, the client constructor raises or the model call fails
    (raises, or answers with no text), identify_ingredients returns a
    string starting with [Error] and generate_recipe a JSON error object. *)
Theorem failures_stay_in_band (w : world) (f : uploaded_file) (ing cuisine : pystr) (max_time : Z)
    (dietary_filters : list pystr) (tr : calls) :
  (exists r tr', identify_ingredients w f tr = (Ret r, tr') /\
     (transport_failure w (identify_contents f) = true -> prefixb (s2c "Error") r = true)) /\
  (exists r tr', generate_recipe w ing cuisine max_time dietary_filters tr = (Ret r, tr') /\
     (transport_failure w [TextPart (recipe_prompt ing cuisine max_time dietary_filters)] = true ->
      is_json_error_object r = true)).
Proof.
  unfold transport_failure. split.
  - unfold identify_ingredients, identify_contents, bind, try_except, client_new, ret,
      generate_content, response_text.
    rewrite get_gemini_api_key_eq.
    destruct (key_resolved w) as [k|] eqn:Ek.
    + rewrite (key_resolved_truthy _ _ Ek). simpl negb. cbv iota.
      destruct (client_init w k) as [e|].
      * do 2 eexists. split; [reflexivity|]. intros _. vm_compute. reflexivity.
      * destruct (model_call w [BytesPart (file_bytes f) (file_type f); TextPart identify_prompt])
          as [e|[t|]]; do 2 eexists; (split; [reflexivity|]); intros H; try discriminate H;
          apply prefixb_app_r; vm_compute; reflexivity.
    + do 2 eexists. split; [reflexivity|]. intros _. vm_compute. reflexivity.
  - unfold generate_recipe, bind, try_except, client_new, ret, generate_content, response_text.
    rewrite get_gemini_api_key_eq.
    destruct (key_resolved w) as [k|] eqn:Ek.
    + rewrite (key_resolved_truthy _ _ Ek). simpl negb. cbv iota.
      destruct (client_init w k) as [e|].
      * do 2 eexists. split; [reflexivity|]. intros _. vm_compute. reflexivity.
      * destruct (contains sentinel ing).
        -- do 2 eexists. split; [reflexivity|]. intros _. vm_compute. reflexivity.
        -- destruct (model_call w [TextPart (recipe_prompt ing cuisine max_time dietary_filters)])
             as [e|[t|]]; do 2 eexists; (split; [reflexivity|]); intros H; try discriminate H;
             vm_compute; reflexivity.
    + do 2 eexists. split; [reflexivity|]. intros _. vm_compute. reflexivity.
Qed.

(** ** C10 *)

(** C10: the sentinel is detected by containment: any ingredient string
    containing it, anywhere, ends generate_recipe in one of its early
    error returns (the no-food object once a key resolves and the client
    is built) and never reaches the model call. *)
Theorem generate_recipe_sentinel_substring (w : world) (ing cuisine : pystr) (max_time : Z)
    (dietary_filters : list pystr) (tr : calls) :
  contains sentinel ing = true ->
  snd (generate_recipe w ing cuisine max_time dietary_filters tr) = tr /\
  In (fst (generate_recipe w ing cuisine max_time dietary_filters tr))
     [Ret err_no_food; Ret err_no_client; Ret err_client_init] /\
  (forall k, key_resolved w = Some k -> client_init w k = None ->
     fst (generate_recipe w ing cuisine max_time dietary_filters tr) = Ret err_no_food).
Proof.
  intros Hs. rewrite (generate_recipe_early _ _ _ _ _ _ Hs). simpl.
  split; [reflexivity|]. split.
  - destruct (key_resolved w) as [k|]; [destruct (client_init w k)|]; simpl; tauto.
  - intros k Hk Hc. rewrite Hk, Hc. reflexivity.
Qed.

Lemma generate_recipe_sentinel_substring_witness :
  let ing := s2c "['2 eggs', 'FAILURE: NO FOOD DETECTED', '1 cup flour']" in
  let w := world_of (Some (s2c "key")) None (ApiText (Some [])) in
  ing <> sentinel /\
  contains sentinel ing = true /\
  snd (generate_recipe w ing (s2c "Italian") 30 [] []) = [] /\
  In (fst (generate_recipe w ing (s2c "Italian") 30 [] []))
     [Ret err_no_food; Ret err_no_client; Ret err_client_init] /\
  (forall k, key_resolved w = Some k -> client_init w k = None ->
     fst (generate_recipe w ing (s2c "Italian") 30 [] []) = Ret err_no_food).
Proof.
  intros ing w. split; [vm_compute; intros H; discriminate H|].
  split; [vm_compute; reflexivity|].
  apply generate_recipe_sentinel_substring. vm_compute. reflexivity.
Defined.

(** ** C5 *)

(** C5 (the fallback is only reached when the secrets lookup raises): a
    secret [GEMINI_API_KEY] set to the empty string does not raise, so
    the non-empty environment variable is never read and no key is
    returned. *)
Theorem empty_secret_skips_env_fallback :
  let w := world_of (Some []) (Some (s2c "AIza-env-key")) (ApiText (Some [])) in
  env_key w = Some (s2c "AIza-env-key") /\ truthy (s2c "AIza-env-key") = true /\
  get_gemini_api_key w [] = (Ret None, []).
Proof. vm_compute. repeat split. Qed.

(** ** Dicts built by json.loads *)

Lemma dict_get_set (d : dict) (k' : pystr) (v : pyval) (k : pystr) :
  dict_get (dict_set d k' v) k =
  if list_eq_dec Z.eq_dec k' k then Some v else dict_get d k.
Proof.
  induction d as [|[k0 v0] t IH]; simpl.
  - reflexivity.
  - destruct (list_eq_dec Z.eq_dec k0 k') as [E|E]; simpl.
    + subst k0. destruct (list_eq_dec Z.eq_dec k' k); reflexivity.
    + rewrite IH. destruct (list_eq_dec Z.eq_dec k0 k) as [E2|E2];
        destruct (list_eq_dec Z.eq_dec k' k) as [E3|E3]; congruence.
Qed.

Lemma dict_get_fold (kvs : list (pystr * pyval)) (d : dict) (k : pystr) :
  dict_get (fold_left (fun d kv => dict_set d (fst kv) (snd kv)) kvs d) k =
  fold_left (fun acc kv => if list_eq_dec Z.eq_dec (fst kv) k then Some (snd kv) else acc)
            kvs (dict_get d k).
Proof.
  revert d. induction kvs as [|kv kvs IH]; intros d; simpl; [reflexivity|].
  rewrite IH, dict_get_set. reflexivity.
Qed.

(** ** Round trip through json.dumps and json.loads *)

Ltac zeqb_false :=
  repeat match goal with
         | |- context [?x =? ?n] => rewrite (proj2 (Z.eqb_neq x n)) by lia
         end.

Lemma is_digit_range (c : Z) : is_digit c = true <-> 48 <= c <= 57.
Proof. unfold is_digit. rewrite andb_true_iff, !Z.leb_le. tauto. Qed.

(** *** Decimal digits of an integer *)

Lemma digits_value_app (ds : pystr) (d : Z) :
  digits_value (ds ++ [d]) = digits_value ds * 10 + (d - 48).
Proof. unfold digits_value. rewrite fold_left_app. reflexivity. Qed.

Lemma digits_of_S (f : nat) (n : Z) (acc : pystr) :
  digits_of (S f) n acc =
  if n <? 10 then (48 + n mod 10) :: acc else digits_of f (n / 10) ((48 + n mod 10) :: acc).
Proof. reflexivity. Qed.

Lemma digits_of_spec (f : nat) (n : Z) (acc : pystr) :
  0 <= n < 10 ^ Z.of_nat (S f) ->
  exists c t, digits_of (S f) n acc = (c :: t) ++ acc /\
    digits_value (c :: t) = n /\ Forall (fun x => is_digit x = true) (c :: t) /\
    (c = 48 -> n = 0 /\ t = []).
Proof.
  revert n acc. induction f as [|f IH]; intros n acc Hn; rewrite digits_of_S;
    destruct (Z.ltb_spec n 10) as [Hlt|Hge].
  - exists (48 + n mod 10), []. rewrite Z.mod_small by lia.
    split; [reflexivity|]. split; [unfold digits_value; cbn [fold_left]; lia|].
    split; [constructor; [apply is_digit_range; lia|constructor]|]. intros H; split; [lia|reflexivity].
  - simpl in Hn. lia.
  - exists (48 + n mod 10), []. rewrite Z.mod_small by lia.
    split; [reflexivity|]. split; [unfold digits_value; cbn [fold_left]; lia|].
    split; [constructor; [apply is_digit_range; lia|constructor]|]. intros H; split; [lia|reflexivity].
  - assert (Hb : 0 <= n / 10 < 10 ^ Z.of_nat (S f)).
    { rewrite Nat2Z.inj_succ, Z.pow_succ_r in Hn by lia.
      split; [apply Z.div_pos; lia|]. apply Z.div_lt_upper_bound; lia. }
    destruct (IH (n / 10) ((48 + n mod 10) :: acc) Hb) as [c [t [H1 [H2 [H3 H4]]]]].
    exists c, (t ++ [48 + n mod 10]). rewrite H1.
    split; [simpl; rewrite <- app_assoc; reflexivity|].
    split.
    { change (c :: t ++ [48 + n mod 10]) with ((c :: t) ++ [48 + n mod 10]).
      rewrite digits_value_app, H2. pose proof (Z.div_mod n 10 ltac:(lia)). lia. }
    split.
    { change (c :: t ++ [48 + n mod 10]) with ((c :: t) ++ [48 + n mod 10]).
      apply Forall_app. split; [exact H3|]. constructor; [|constructor].
      apply is_digit_range. pose proof (Z.mod_pos_bound n 10 ltac:(lia)). lia. }
    intros Hc. destruct (H4 Hc) as [Hz _].
    pose proof (Z.div_mod n 10 ltac:(lia)). pose proof (Z.mod_pos_bound n 10 ltac:(lia)). lia.
Qed.

Lemma py_str_int_abs (z : Z) :
  exists c t, py_str_int (Z.abs z) = c :: t /\
    digits_value (c :: t) = Z.abs z /\ Forall (fun x => is_digit x = true) (c :: t) /\
    (c = 48 -> t = []) /\
    py_str_int z = if z <? 0 then 45 :: c :: t else c :: t.
Proof.
  assert (Hb : 0 <= Z.abs z < 10 ^ Z.of_nat (S (Z.to_nat (Z.log2 (Z.abs z))))).
  { split; [lia|].
    rewrite Nat2Z.inj_succ, Z2Nat.id by apply Z.log2_nonneg.
    destruct (Z.eq_dec (Z.abs z) 0) as [E|E].
    - rewrite E. simpl. lia.
    - destruct (Z.log2_spec (Z.abs z)) as [_ H]; [lia|].
      eapply Z.lt_le_trans; [exact H|].
      apply Z.pow_le_mono_l. split; [lia|lia]. }
  destruct (digits_of_spec _ _ [] Hb) as [c [t [H1 [H2 [H3 H4]]]]].
  rewrite app_nil_r in H1.
  exists c, t. unfold py_str_int at 1.
  rewrite Z.abs_idemp.
  replace (Z.abs z <? 0) with false by (symmetry; apply Z.ltb_ge; lia).
  split; [exact H1|]. split; [exact H2|]. split; [exact H3|].
  split; [intros Hc; apply (H4 Hc)|].
  unfold py_str_int. destruct (Z.ltb_spec z 0).
  - replace (- z) with (Z.abs z) by lia. rewrite H1. reflexivity.
  - replace z with (Z.abs z) at 2 by lia. rewrite H1. reflexivity.
Qed.

Lemma span_digits_all (t : pystr) :
  Forall (fun x => is_digit x = true) t -> span_digits t = (t, []).
Proof.
  induction t as [|c t IH]; intros H; [reflexivity|].
  inversion H as [|? ? Hc Ht]; subst. simpl. rewrite Hc, (IH Ht). reflexivity.
Qed.

Lemma number_int_digits (c : Z) (t : pystr) :
  Forall (fun x => is_digit x = true) (c :: t) -> (c = 48 -> t = []) ->
  number_int (c :: t) = Some (c :: t, []).
Proof.
  intros H H48. inversion H as [|? ? Hc Ht]; subst.
  apply is_digit_range in Hc. unfold number_int.
  destruct (Z.eqb_spec c 48) as [E|E].
  - rewrite (H48 E). subst. reflexivity.
  - replace ((49 <=? c) && (c <=? 57)) with true
      by (symmetry; apply andb_true_iff; split; apply Z.leb_le; lia).
    rewrite (span_digits_all _ Ht). reflexivity.
Qed.

Lemma scan_number_int (z : Z) :
  (List.length (py_str_int (Z.abs z)) <= int_max_str_digits)%nat ->
  scan_number (py_str_int z) = Scanned (JInt z, []).
Proof.
  destruct (py_str_int_abs z) as [c [t [H1 [H2 [H3 [H4 H5]]]]]].
  rewrite H1. intros Hlen. rewrite H5.
  assert (Hc : c <> 45).
  { inversion H3 as [|? ? Hc _]; subst. apply is_digit_range in Hc. lia. }
  assert (Hlt : Nat.ltb int_max_str_digits (List.length (c :: t)) = false)
    by (apply Nat.ltb_ge; exact Hlen).
  unfold scan_number. destruct (Z.ltb_spec z 0).
  - change (number_sign (45 :: c :: t)) with (true, c :: t). cbv iota beta.
    rewrite (number_int_digits _ _ H3 H4). cbv iota beta.
    change (number_frac []) with (@nil Z, @nil Z). cbv iota beta.
    change (number_exp []) with (@nil Z, @nil Z). cbv iota beta. rewrite Hlt, H2. repeat f_equal. lia.
  - assert (E : number_sign (c :: t) = (false, c :: t))
      by (unfold number_sign; rewrite (proj2 (Z.eqb_neq c 45) Hc); reflexivity).
    rewrite E. cbv iota beta.
    rewrite (number_int_digits _ _ H3 H4). cbv iota beta.
    change (number_frac []) with (@nil Z, @nil Z). cbv iota beta.
    change (number_exp []) with (@nil Z, @nil Z). cbv iota beta. rewrite Hlt, H2. repeat f_equal. lia.
Qed.

(** *** Number lexemes followed by the end of a value *)

Lemma value_end_cases (rest : pystr) :
  value_end rest = true ->
  rest = [] \/ exists c t, rest = c :: t /\ (c = 44 \/ c = 93 \/ c = 125).
Proof.
  destruct rest as [|c t]; [left; reflexivity|]. simpl. intros H. right. exists c, t.
  split; [reflexivity|]. apply orb_true_iff in H as [H|H]; [apply orb_true_iff in H as [H|H]|];
    apply Z.eqb_eq in H; tauto.
Qed.

Ltac end_cases H :=
  let Hc := fresh "Hc" in
  destruct (value_end_cases _ H) as [->|[? [? [-> Hc]]]];
  [|destruct Hc as [-> | [-> | ->]]].

Lemma span_digits_app (t rest : pystr) :
  value_end rest = true ->
  span_digits (t ++ rest) = (fst (span_digits t), snd (span_digits t) ++ rest).
Proof.
  intros H. induction t as [|c t IH].
  - end_cases H; reflexivity.
  - simpl. destruct (is_digit c); [|reflexivity].
    rewrite IH. destruct (span_digits t); reflexivity.
Qed.

Lemma number_sign_app (s rest : pystr) :
  value_end rest = true ->
  number_sign (s ++ rest) = (fst (number_sign s), snd (number_sign s) ++ rest).
Proof.
  intros H. destruct s as [|c s].
  - end_cases H; reflexivity.
  - simpl. destruct (c =? 45); reflexivity.
Qed.

Lemma number_int_app (s rest : pystr) :
  value_end rest = true ->
  number_int (s ++ rest) = option_map (fun p => (fst p, snd p ++ rest)) (number_int s).
Proof.
  intros H. destruct s as [|c s].
  - end_cases H; reflexivity.
  - simpl. destruct (c =? 48); [reflexivity|].
    destruct ((49 <=? c) && (c <=? 57)); [|reflexivity].
    rewrite (span_digits_app _ _ H). destruct (span_digits s); reflexivity.
Qed.

Lemma number_frac_app (r rest : pystr) :
  value_end rest = true ->
  number_frac (r ++ rest) = (fst (number_frac r), snd (number_frac r) ++ rest).
Proof.
  intros H. destruct r as [|p [|d r]].
  - end_cases H; try reflexivity;
      match goal with |- number_frac (_ ++ _ :: ?t) = _ => destruct t end; reflexivity.
  - end_cases H; try reflexivity; simpl; rewrite andb_false_r; reflexivity.
  - simpl. destruct ((p =? 46) && is_digit d); [|reflexivity].
    rewrite (span_digits_app _ _ H). destruct (span_digits r); reflexivity.
Qed.

Lemma exp_sign_app (t rest : pystr) :
  value_end rest = true ->
  exp_sign (t ++ rest) = (fst (exp_sign t), snd (exp_sign t) ++ rest).
Proof.
  intros H. destruct t as [|x t].
  - end_cases H; reflexivity.
  - simpl. destruct ((x =? 45) || (x =? 43)); reflexivity.
Qed.

Lemma number_exp_app (r rest : pystr) :
  value_end rest = true ->
  number_exp (r ++ rest) = (fst (number_exp r), snd (number_exp r) ++ rest).
Proof.
  intros H. destruct r as [|e t].
  - end_cases H; reflexivity.
  - change ((e :: t) ++ rest) with (e :: (t ++ rest)). unfold number_exp.
    destruct ((e =? 101) || (e =? 69)); [|reflexivity].
    rewrite (exp_sign_app _ _ H). destruct (exp_sign t) as [sg t']. cbn [fst snd].
    rewrite (span_digits_app _ _ H). destruct (span_digits t') as [ds r0]. cbn [fst snd].
    destruct ds; reflexivity.
Qed.

Lemma scan_number_app (s rest : pystr) :
  value_end rest = true ->
  scan_number (s ++ rest) =
  match scan_number s with
  | Scanned (x, r) => Scanned (x, r ++ rest)
  | DecodeError => DecodeError
  | OtherError e => OtherError e
  end.
Proof.
  intros H. unfold scan_number.
  rewrite (number_sign_app _ _ H). destruct (number_sign s) as [neg s1]. cbn [fst snd].
  rewrite (number_int_app _ _ H). destruct (number_int s1) as [[ip r1]|]; [|reflexivity].
  cbn [option_map fst snd].
  rewrite (number_frac_app _ _ H). destruct (number_frac r1) as [frac r2]. cbn [fst snd].
  rewrite (number_exp_app _ _ H). destruct (number_exp r2) as [expo r3]. cbn [fst snd].
  destruct frac, expo; try reflexivity.
  destruct (Nat.ltb int_max_str_digits (List.length ip)); reflexivity.
Qed.

Lemma number_int_head (s1 : pystr) (p : pystr * pystr) :
  number_int s1 = Some p -> exists c t, s1 = c :: t /\ is_digit c = true.
Proof.
  destruct s1 as [|c t]; [discriminate|]. intros H. exists c, t. split; [reflexivity|].
  unfold number_int in H. apply is_digit_range.
  destruct (Z.eqb_spec c 48); [lia|].
  destruct ((49 <=? c) && (c <=? 57)) eqn:E; [|discriminate].
  apply andb_true_iff in E as [E1 E2]. apply Z.leb_le in E1, E2. lia.
Qed.

Lemma scan_number_head (s : pystr) (x : jval * pystr) :
  scan_number s = Scanned x -> number_start s.
Proof.
  unfold scan_number. destruct s as [|c t].
  - intros H. discriminate H.
  - unfold number_sign. destruct (Z.eqb_spec c 45) as [E|E]; cbv iota beta.
    + destruct (number_int t) as [p|] eqn:Hi; [|discriminate].
      intros _. destruct (number_int_head _ _ Hi) as [c2 [t2 [-> Hd]]].
      exists c, (c2 :: t2). split; [reflexivity|]. right. split; [exact E|]. exists c2, t2. tauto.
    + destruct (number_int (c :: t)) as [p|] eqn:Hi; [|discriminate].
      intros _. destruct (number_int_head _ _ Hi) as [c2 [t2 [Ht Hd]]].
      injection Ht as <- <-. exists c, t. tauto.
Qed.

Lemma parse_value_number (f rec : nat) (s : pystr) :
  number_start s -> parse_value (S f) rec s = scan_number s.
Proof.
  intros [c [t [-> [Hd | [-> [c2 [t2 [-> Hd2]]]]]]]].
  - apply is_digit_range in Hd.
    assert (c = 48 \/ c = 49 \/ c = 50 \/ c = 51 \/ c = 52 \/ c = 53 \/ c = 54 \/ c = 55 \/ c = 56 \/ c = 57)
      as Hc by lia.
    repeat destruct Hc as [-> | Hc]; try (subst c); reflexivity.
  - apply is_digit_range in Hd2.
    assert (c2 = 48 \/ c2 = 49 \/ c2 = 50 \/ c2 = 51 \/ c2 = 52 \/ c2 = 53 \/ c2 = 54 \/ c2 = 55 \/ c2 = 56 \/ c2 = 57)
      as Hc by lia.
    repeat destruct Hc as [-> | Hc]; try (subst c2); reflexivity.
Qed.

(** *** Escapes of json.dumps read back by scanstring *)

Lemma hex_val_digit (d : Z) : 0 <= d < 16 -> hex_val (hex_digit d) = Some d.
Proof.
  intros H.
  assert (d = 0 \/ d = 1 \/ d = 2 \/ d = 3 \/ d = 4 \/ d = 5 \/ d = 6 \/ d = 7 \/ d = 8 \/ d = 9 \/
          d = 10 \/ d = 11 \/ d = 12 \/ d = 13 \/ d = 14 \/ d = 15) as Hd by lia.
  repeat destruct Hd as [-> | Hd]; try (subst d); reflexivity.
Qed.

Lemma nibble_bound (c : Z) (k : Z) : 0 <= k -> 0 <= Z.land (Z.shiftr c k) 15 < 16.
Proof.
  intros Hk. change 15 with (Z.ones 4). rewrite Z.land_ones by lia.
  apply Z.mod_pos_bound. lia.
Qed.

Lemma hex4_u_escape (c : Z) (r : pystr) :
  0 <= c < 65536 ->
  exists g1 g2 g3 g4, u_escape c ++ r = 92 :: 117 :: g1 :: g2 :: g3 :: g4 :: r /\ hex4 g1 g2 g3 g4 = Some c.
Proof.
  intros Hc. unfold u_escape.
  eexists _, _, _, _. split; [reflexivity|]. unfold hex4.
  rewrite !hex_val_digit by (apply nibble_bound; lia).
  rewrite (hex_val_digit (Z.land c 15))
    by (change 15 with (Z.ones 4); rewrite Z.land_ones by lia; apply Z.mod_pos_bound; lia).
  f_equal. change 15 with (Z.ones 4). rewrite !Z.land_ones by lia.
  rewrite !Z.shiftr_div_pow2 by lia.
  change (2 ^ 12) with (16 * 16 * 16). change (2 ^ 8) with (16 * 16). change (2 ^ 4) with 16.
  rewrite <- !Z.div_div by lia.
  assert (0 <= c / 16 / 16 / 16 < 16) by (rewrite !Z.div_div by lia; split;
    [apply Z.div_pos | apply Z.div_lt_upper_bound]; lia).
  rewrite (Z.mod_small (c / 16 / 16 / 16)) by lia.
  pose proof (Z.div_mod c 16 ltac:(lia)). pose proof (Z.div_mod (c / 16) 16 ltac:(lia)).
  pose proof (Z.div_mod (c / 16 / 16) 16 ltac:(lia)).
  set (a := c / 16) in *. set (b := a / 16) in *. set (d := b / 16) in *. lia.
Qed.

Lemma low_ahead_u (c : Z) (r : pystr) :
  0 <= c < 65536 -> is_low_surrogate c = false -> low_ahead (u_escape c ++ r) = false.
Proof.
  intros Hc Hl. destruct (hex4_u_escape c r Hc) as [g1 [g2 [g3 [g4 [-> Hh]]]]].
  unfold low_ahead. rewrite Hh, Hl. destruct r; reflexivity.
Qed.

Lemma low_ahead_not_bs (c : Z) (r : pystr) : c <> 92 -> low_ahead (c :: r) = false.
Proof.
  intros H. unfold low_ahead. do 5 (destruct r as [|? r]; try reflexivity).
  rewrite (proj2 (Z.eqb_neq c 92) H). reflexivity.
Qed.

Lemma low_ahead_bs (c : Z) (r : pystr) : c <> 117 -> low_ahead (92 :: c :: r) = false.
Proof.
  intros H. unfold low_ahead. do 4 (destruct r as [|? r]; try reflexivity).
  rewrite (proj2 (Z.eqb_neq c 117) H). reflexivity.
Qed.

Lemma surrogate_split (c : Z) :
  65536 <= c <= 1114111 ->
  let hi := 55296 - 64 + Z.shiftr c 10 in
  let lo := 56320 + Z.land c 1023 in
  0 <= hi < 65536 /\ 0 <= lo < 65536 /\ is_high_surrogate hi = true /\
  is_low_surrogate hi = false /\ is_low_surrogate lo = true /\ join_surrogates hi lo = c.
Proof.
  intros Hc hi lo. subst hi lo.
  change 1023 with (Z.ones 10). rewrite Z.land_ones by lia. rewrite Z.shiftr_div_pow2 by lia.
  change (2 ^ 10) with 1024.
  unfold is_high_surrogate, is_low_surrogate, join_surrogates.
  pose proof (Z.div_mod c 1024 ltac:(lia)). pose proof (Z.mod_pos_bound c 1024 ltac:(lia)).
  assert (64 <= c / 1024 < 1088) by (split; [apply Z.div_le_lower_bound | apply Z.div_lt_upper_bound]; lia).
  repeat split; try lia;
    repeat match goal with |- context [?a <=? ?b] => first [rewrite (proj2 (Z.leb_le a b)) by lia
                                                           | rewrite (proj2 (Z.leb_gt a b)) by lia] end;
    reflexivity.
Qed.

(** The low-surrogate lookahead after the escape of a code point that is
    not a low surrogate fails. *)
Lemma low_ahead_escape (c : Z) (r : pystr) :
  0 <= c <= 1114111 -> is_low_surrogate c = false -> low_ahead (ascii_escape c ++ r) = false.
Proof.
  intros Hc Hl. unfold ascii_escape.
  destruct (Z.eqb_spec c 92); [apply low_ahead_bs; lia|].
  destruct (Z.eqb_spec c 34); [apply low_ahead_bs; lia|].
  destruct (Z.eqb_spec c 8); [apply low_ahead_bs; lia|].
  destruct (Z.eqb_spec c 12); [apply low_ahead_bs; lia|].
  destruct (Z.eqb_spec c 10); [apply low_ahead_bs; lia|].
  destruct (Z.eqb_spec c 13); [apply low_ahead_bs; lia|].
  destruct (Z.eqb_spec c 9); [apply low_ahead_bs; lia|].
  destruct ((32 <=? c) && (c <=? 126)); [apply low_ahead_not_bs; lia|].
  destruct (Z.leb_spec 65536 c).
  - destruct (surrogate_split c ltac:(lia)) as [H1 [H2 [_ [H4 _]]]].
    rewrite <- app_assoc. apply low_ahead_u; assumption.
  - apply low_ahead_u; [lia | exact Hl].
Qed.

Lemma scan_string_u (g1 g2 g3 g4 : Z) (r : pystr) :
  scan_string (92 :: 117 :: g1 :: g2 :: g3 :: g4 :: r) =
  match hex4 g1 g2 g3 g4 with
  | None => None
  | Some u =>
      if is_high_surrogate u then
        match r with
        | b1 :: b2 :: h1 :: h2 :: h3 :: h4 :: r2 =>
            if (b1 =? 92) && (b2 =? 117) && negb (match r2 with [] => true | _ => false end)
            then match hex4 h1 h2 h3 h4 with
                 | None => None
                 | Some u2 =>
                     if is_low_surrogate u2
                     then cons_fst (join_surrogates u u2) (scan_string r2)
                     else cons_fst u (scan_string r)
                 end
            else cons_fst u (scan_string r)
        | _ => cons_fst u (scan_string r)
        end
      else cons_fst u (scan_string r)
  end.
Proof. reflexivity. Qed.

Lemma scan_string_single (g1 g2 g3 g4 u : Z) (r : pystr) :
  hex4 g1 g2 g3 g4 = Some u -> (is_high_surrogate u = true -> low_ahead r = false) ->
  scan_string (92 :: 117 :: g1 :: g2 :: g3 :: g4 :: r) = cons_fst u (scan_string r).
Proof.
  intros Hh Hl. rewrite scan_string_u, Hh.
  destruct (is_high_surrogate u); [|reflexivity].
  specialize (Hl eq_refl). unfold low_ahead in Hl.
  destruct r as [|b1 [|b2 [|h1 [|h2 [|h3 [|h4 r2]]]]]]; try reflexivity.
  destruct ((b1 =? 92) && (b2 =? 117) && negb (match r2 with [] => true | _ => false end));
    [|reflexivity].
  destruct (hex4 h1 h2 h3 h4); [|discriminate].
  cbn [andb] in Hl. rewrite Hl. reflexivity.
Qed.

Lemma scan_string_pair (g1 g2 g3 g4 h1 h2 h3 h4 hi lo : Z) (r2 : pystr) :
  hex4 g1 g2 g3 g4 = Some hi -> hex4 h1 h2 h3 h4 = Some lo ->
  is_high_surrogate hi = true -> is_low_surrogate lo = true -> r2 <> [] ->
  scan_string (92 :: 117 :: g1 :: g2 :: g3 :: g4 :: 92 :: 117 :: h1 :: h2 :: h3 :: h4 :: r2) =
  cons_fst (join_surrogates hi lo) (scan_string r2).
Proof.
  intros H1 H2 H3 H4 H5. rewrite scan_string_u, H1, H3.
  destruct r2 as [|x r2]; [contradiction|]. cbn [Z.eqb Pos.eqb andb negb].
  rewrite H2, H4. reflexivity.
Qed.

(** One code point written by [ascii_escape] is read back by [scanstring]. *)
Lemma scan_escape (c : Z) (r : pystr) :
  0 <= c <= 1114111 -> r <> [] -> (is_high_surrogate c = true -> low_ahead r = false) ->
  scan_string (ascii_escape c ++ r) = cons_fst c (scan_string r).
Proof.
  intros Hc Hr Hl. unfold ascii_escape.
  destruct (Z.eqb_spec c 92); [subst; reflexivity|].
  destruct (Z.eqb_spec c 34); [subst; reflexivity|].
  destruct (Z.eqb_spec c 8); [subst; reflexivity|].
  destruct (Z.eqb_spec c 12); [subst; reflexivity|].
  destruct (Z.eqb_spec c 10); [subst; reflexivity|].
  destruct (Z.eqb_spec c 13); [subst; reflexivity|].
  destruct (Z.eqb_spec c 9); [subst; reflexivity|].
  destruct ((32 <=? c) && (c <=? 126)) eqn:Hp.
  - apply andb_true_iff in Hp as [Hp1 Hp2]. apply Z.leb_le in Hp1, Hp2.
    change ([c] ++ r) with (c :: r). cbn [scan_string].
    rewrite (proj2 (Z.eqb_neq c 34)), (proj2 (Z.eqb_neq c 92)), (proj2 (Z.ltb_ge c 32)) by lia.
    reflexivity.
  - destruct (Z.leb_spec 65536 c).
    + destruct (surrogate_split c ltac:(lia)) as [B1 [B2 [Hh [_ [Hlo Hj]]]]].
      destruct (hex4_u_escape (56320 + Z.land c 1023) r B2) as [h1 [h2 [h3 [h4 [E2 Hx2]]]]].
      destruct (hex4_u_escape (55296 - 64 + Z.shiftr c 10) (u_escape (56320 + Z.land c 1023) ++ r) B1)
        as [g1 [g2 [g3 [g4 [E1 Hx1]]]]].
      rewrite <- app_assoc, E1, E2.
      rewrite (scan_string_pair _ _ _ _ _ _ _ _ _ _ _ Hx1 Hx2 Hh Hlo Hr), Hj. reflexivity.
    + destruct (hex4_u_escape c r ltac:(lia)) as [g1 [g2 [g3 [g4 [E Hx]]]]].
      rewrite E. apply scan_string_single; assumption.
Qed.

(** Text written by [json.dumps] is read back up to its closing quote. *)
Lemma scan_dumps_text (s rest : pystr) :
  valid_text s = true ->
  scan_string (flat_map ascii_escape s ++ 34 :: rest) = Some (s, rest).
Proof.
  induction s as [|c t IH]; intros Hv; [reflexivity|].
  simpl in Hv. apply andb_true_iff in Hv as [Hv Ht]. apply andb_true_iff in Hv as [Hv Hn].
  apply andb_true_iff in Hv as [Hv0 Hv1]. apply Z.leb_le in Hv0, Hv1.
  cbn [flat_map]. rewrite <- app_assoc.
  rewrite scan_escape.
  - rewrite (IH Ht). reflexivity.
  - lia.
  - intros E. apply app_eq_nil in E as [_ E]. discriminate E.
  - intros Hh. destruct t as [|c' t'].
    + apply low_ahead_not_bs. lia.
    + cbn [flat_map]. rewrite <- app_assoc.
      rewrite Hh in Hn. cbn [andb negb] in Hn.
      simpl in Ht. apply andb_true_iff in Ht as [Ht _]. apply andb_true_iff in Ht as [Ht _].
      apply andb_true_iff in Ht as [Ht0 Ht1]. apply Z.leb_le in Ht0, Ht1.
      apply low_ahead_escape; [lia|]. destruct (is_low_surrogate c'); [discriminate|reflexivity].
Qed.

(** *** Values written by json.dumps *)

Lemma float_lexeme_scan (l : pystr) :
  float_lexeme_ok l = true -> scan_number l = Scanned (JFloat l, []).
Proof.
  unfold float_lexeme_ok. destruct (scan_number l) as [[j r]| |]; try discriminate.
  destruct j; try discriminate. destruct r; try discriminate.
  destruct (list_eq_dec Z.eq_dec lexeme l) as [->|]; [reflexivity|discriminate].
Qed.

Lemma number_start_app (s r : pystr) : number_start s -> number_start (s ++ r).
Proof.
  intros [c [t [-> [Hd | [-> [c2 [t2 [-> Hd2]]]]]]]].
  - exists c, (t ++ r). tauto.
  - exists 45, (c2 :: t2 ++ r). split; [reflexivity|]. right. split; [reflexivity|].
    exists c2, (t2 ++ r). tauto.
Qed.

Lemma dumps_head (v : pyval) :
  json_value_ok v = true ->
  exists c t, dumps v = c :: t /\
    (c = 34 \/ c = 91 \/ c = 123 \/ c = 110 \/ c = 116 \/ c = 102 \/ c = 45 \/ 48 <= c <= 57).
Proof.
  intros Hok. destruct v as [| b | z | l | s | l | d].
  - eexists _, _. split; [reflexivity | vm_compute; lia].
  - destruct b; eexists _, _; (split; [reflexivity | vm_compute; lia]).
  - cbn [dumps]. destruct (py_str_int_abs z) as [c [t [_ [_ [H3 [_ H5]]]]]].
    rewrite H5. inversion H3 as [|? ? Hc _]; subst. apply is_digit_range in Hc.
    destruct (z <? 0); eexists _, _; (split; [reflexivity | lia]).
  - cbn [dumps json_value_ok] in *. pose proof (float_lexeme_scan l Hok) as Hs.
    destruct (scan_number_head _ _ Hs) as [c [t [-> [Hd | [-> _]]]]].
    + apply is_digit_range in Hd. exists c, t. split; [reflexivity | lia].
    + eexists _, _. split; [reflexivity | lia].
  - eexists _, _. split; [reflexivity | lia].
  - eexists _, _. split; [reflexivity | lia].
  - eexists _, _. split; [reflexivity | lia].
Qed.

Lemma dumps_head_props (v : pyval) :
  json_value_ok v = true ->
  exists c t, dumps v = c :: t /\ json_ws c = false /\ c <> 93 /\ c <> 125 /\ c <> 65279.
Proof.
  intros Hok. destruct (dumps_head v Hok) as [c [t [E Hc]]]. exists c, t.
  split; [exact E|]. split; [|lia]. unfold json_ws. zeqb_false. reflexivity.
Qed.

Lemma skip_ws_dumps (v : pyval) (r : pystr) :
  json_value_ok v = true -> skip_ws (dumps v ++ r) = dumps v ++ r.
Proof.
  intros Hok. destruct (dumps_head_props v Hok) as [c [t [E [Hw _]]]].
  rewrite E. cbn [app skip_ws]. rewrite Hw. reflexivity.
Qed.

Lemma py_join_head (sep x : pystr) (xs : list pystr) :
  py_join sep (x :: xs) = x ++ match xs with [] => [] | _ => sep ++ py_join sep xs end.
Proof. destruct xs; [rewrite app_nil_r|]; reflexivity. Qed.

Lemma py_join_length_in (sep s : pystr) (xs : list pystr) :
  In s xs -> (List.length s <= List.length (py_join sep xs))%nat.
Proof.
  induction xs as [|x xs IH]; intros Hin; [destruct Hin|].
  rewrite py_join_head. destruct Hin as [->|Hin].
  - rewrite length_app. lia.
  - destruct xs as [|y xs]; [destruct Hin|].
    rewrite !length_app. specialize (IH Hin). lia.
Qed.

Lemma py_join_length_count (sep : pystr) (xs : list pystr) :
  Forall (fun s => s <> []) xs -> (List.length xs <= List.length (py_join sep xs))%nat.
Proof.
  induction xs as [|x xs IH]; intros Hf; [simpl; lia|].
  inversion Hf as [|? ? Hx Hf']; subst.
  rewrite py_join_head. rewrite length_app.
  destruct x as [|c x]; [contradiction|]. cbn [List.length].
  destruct xs as [|y xs]; [simpl; lia|].
  rewrite length_app. specialize (IH Hf'). cbn [List.length] in *. lia.
Qed.

Lemma skip_ws_join (l : list pyval) (r : pystr) :
  Forall (fun x => json_value_ok x = true) l -> l <> [] ->
  skip_ws (py_join (s2c ", ") (map dumps l) ++ r) = py_join (s2c ", ") (map dumps l) ++ r.
Proof.
  intros Hf Hne. destruct l as [|x l]; [contradiction|].
  inversion Hf; subst. cbn [map]. rewrite py_join_head, <- app_assoc.
  apply skip_ws_dumps. assumption.
Qed.

Lemma parse_elements_dumps (value : pystr -> scanned (jval * pystr)) :
  forall (l : list pyval) (g : nat) (acc : list jval) (s rest : pystr),
  l <> [] -> (List.length l <= g)%nat ->
  Forall (fun x => json_value_ok x = true /\
                   forall r, value_end r = true ->
                   exists j, value (dumps x ++ r) = Scanned (j, r) /\ to_py j = x) l ->
  s = py_join (s2c ", ") (map dumps l) ++ 93 :: rest ->
  exists js, parse_elements value g s acc = Scanned (JArr (acc ++ js), rest) /\ map to_py js = l.
Proof.
  induction l as [|x l IH]; intros g acc s rest Hne Hg Hf ->; [contradiction|].
  destruct g as [|g]; [simpl in Hg; lia|].
  inversion Hf as [|? ? [Hx Hv] Hf']; subst.
  destruct l as [|y l'].
  - destruct (Hv (93 :: rest) eq_refl) as [j [Hj Htj]].
    exists [j]. cbn [parse_elements map py_join]. rewrite Hj.
    cbn [skip_ws json_ws Z.eqb Pos.eqb orb].
    split; [reflexivity|]. cbn [map]. rewrite Htj. reflexivity.
  - destruct (Hv (44 :: 32 :: py_join (s2c ", ") (map dumps (y :: l')) ++ 93 :: rest) eq_refl)
      as [j [Hj Htj]].
    replace (py_join (s2c ", ") (map dumps (x :: y :: l')) ++ 93 :: rest)
      with (dumps x ++ 44 :: 32 :: py_join (s2c ", ") (map dumps (y :: l')) ++ 93 :: rest)
      by (cbn [map py_join]; rewrite <- !app_assoc; reflexivity).
    cbn [parse_elements]. rewrite Hj.
    cbn [skip_ws json_ws Z.eqb Pos.eqb orb].
    assert (Hok : Forall (fun x => json_value_ok x = true) (y :: l'))
      by (eapply Forall_impl; [|exact Hf']; intros z [Hz _]; exact Hz).
    rewrite (skip_ws_join _ _ Hok ltac:(discriminate)).
    destruct (IH g (acc ++ [j]) _ rest ltac:(discriminate) ltac:(simpl in *; lia) Hf' eq_refl)
      as [js [H1 H2]].
    exists (j :: js). rewrite H1, <- app_assoc. split; [reflexivity|].
    cbn [map]. rewrite Htj, H2. reflexivity.
Qed.

Ltac scan_simpl := cbn [skip_ws json_ws Z.eqb Pos.eqb orb andb].

Lemma parse_members_dumps (value : pystr -> scanned (jval * pystr)) :
  forall (d : dict) (g : nat) (acc : list (pystr * jval)) (s rest : pystr),
  d <> [] -> (List.length d <= g)%nat ->
  Forall (fun kx => valid_text (fst kx) = true /\ json_value_ok (snd kx) = true /\
                    forall r, value_end r = true ->
                    exists j, value (dumps (snd kx) ++ r) = Scanned (j, r) /\ to_py j = snd kx) d ->
  s = py_join (s2c ", ") (map (fun '(k, x) => dumps_str k ++ s2c ": " ++ dumps x) d) ++ 125 :: rest ->
  exists ms, parse_members value g s acc = Scanned (JObj (acc ++ ms), rest) /\
    map (fun '(k, x) => (k, to_py x)) ms = d.
Proof.
  induction d as [|[k x] d IH]; intros g acc s rest Hne Hg Hf ->; [contradiction|].
  destruct g as [|g]; [simpl in Hg; lia|].
  inversion Hf as [|? ? [Hk [Hx Hv]] Hf']; subst. cbn [fst snd] in Hk, Hx, Hv.
  destruct d as [|[k' x'] d'].
  - destruct (Hv (125 :: rest) eq_refl) as [j [Hj Htj]].
    exists [(k, j)].
    replace (py_join (s2c ", ") (map (fun '(k, x) => dumps_str k ++ s2c ": " ++ dumps x) [(k, x)])
               ++ 125 :: rest)
      with (34 :: flat_map ascii_escape k ++ 34 :: 58 :: 32 :: dumps x ++ 125 :: rest)
      by (cbn [map py_join]; unfold dumps_str; rewrite <- !app_assoc; reflexivity).
    cbn [parse_members Z.eqb Pos.eqb]. rewrite (scan_dumps_text _ _ Hk).
    scan_simpl. rewrite (skip_ws_dumps _ _ Hx), Hj. scan_simpl.
    split; [reflexivity|]. cbn [map]. rewrite Htj. reflexivity.
  - set (tail := py_join (s2c ", ")
                   (map (fun '(k, x) => dumps_str k ++ s2c ": " ++ dumps x) ((k', x') :: d'))
                 ++ 125 :: rest).
    destruct (Hv (44 :: 32 :: tail) eq_refl) as [j [Hj Htj]].
    replace (py_join (s2c ", ")
               (map (fun '(k, x) => dumps_str k ++ s2c ": " ++ dumps x) ((k, x) :: (k', x') :: d'))
               ++ 125 :: rest)
      with (34 :: flat_map ascii_escape k ++ 34 :: 58 :: 32 :: dumps x ++ 44 :: 32 :: tail)
      by (subst tail; cbn [map py_join]; unfold dumps_str; rewrite <- !app_assoc; reflexivity).
    cbn [parse_members Z.eqb Pos.eqb]. rewrite (scan_dumps_text _ _ Hk).
    scan_simpl. rewrite (skip_ws_dumps _ _ Hx), Hj. scan_simpl.
    assert (Hs : skip_ws tail = tail)
      by (subst tail; cbn [map]; rewrite py_join_head; unfold dumps_str; reflexivity).
    rewrite Hs.
    destruct (IH g (acc ++ [(k, j)]) tail rest ltac:(discriminate) ltac:(simpl in *; lia) Hf' eq_refl)
      as [ms [H1 H2]].
    exists ((k, j) :: ms). rewrite H1, <- app_assoc. split; [reflexivity|].
    cbn [map]. rewrite Htj, H2. reflexivity.
Qed.

Lemma parse_value_quote (f rec : nat) (t : pystr) :
  parse_value (S f) rec (34 :: t) =
  match scan_string t with Some (str, r) => Scanned (JStr str, r) | None => DecodeError end.
Proof. reflexivity. Qed.

Lemma parse_value_array (f rec : nat) (c : Z) (t : pystr) :
  json_ws c = false -> c <> 93 ->
  parse_value (S f) (S rec) (91 :: c :: t) = parse_elements (parse_value f rec) f (c :: t) [].
Proof.
  intros Hw Hn. cbn [parse_value Z.eqb Pos.eqb skip_ws]. rewrite Hw.
  rewrite (proj2 (Z.eqb_neq c 93) Hn). reflexivity.
Qed.

Lemma parse_value_object (f rec : nat) (t : pystr) :
  parse_value (S f) (S rec) (123 :: 34 :: t) = parse_members (parse_value f rec) f (34 :: t) [].
Proof. reflexivity. Qed.

Lemma list_max_in (n : nat) (l : list nat) : In n l -> (n <= list_max l)%nat.
Proof.
  intros Hin. assert (H : (list_max l <= list_max l)%nat) by lia.
  apply list_max_le in H. rewrite Forall_forall in H. apply H, Hin.
Qed.

(** *** Dicts with distinct keys *)

Lemma keys_distinct_app (l1 l2 : list pystr) (k : pystr) :
  keys_distinct (l1 ++ k :: l2) = true -> ~ In k l1.
Proof.
  induction l1 as [|k1 l1 IH]; intros H; [intros []|].
  cbn [app keys_distinct] in H. apply andb_true_iff in H as [H1 H2].
  intros [->|Hin]; [|exact (IH H2 Hin)].
  apply negb_true_iff in H1.
  match type of H1 with existsb ?f ?l = _ => assert (E : existsb f l = true) end.
  { apply existsb_exists. exists k. split; [apply in_or_app; right; left; reflexivity|].
    destruct (list_eq_dec Z.eq_dec k k); [reflexivity|contradiction]. }
  rewrite E in H1. discriminate.
Qed.

Lemma dict_set_new (d : dict) (k : pystr) (v : pyval) :
  ~ In k (map fst d) -> dict_set d k v = d ++ [(k, v)].
Proof.
  induction d as [|[k' v'] d IH]; intros Hn; [reflexivity|].
  cbn [dict_set]. destruct (list_eq_dec Z.eq_dec k' k) as [->|Hne].
  - exfalso. apply Hn. left. reflexivity.
  - rewrite IH; [reflexivity|]. intros Hin. apply Hn. right. exact Hin.
Qed.

Lemma dict_of_fold (d acc : dict) :
  keys_distinct (map fst (acc ++ d)) = true ->
  fold_left (fun d kv => dict_set d (fst kv) (snd kv)) d acc = acc ++ d.
Proof.
  revert acc. induction d as [|[k v] d IH]; intros acc H.
  - rewrite app_nil_r. reflexivity.
  - cbn [fold_left fst snd]. rewrite dict_set_new.
    + rewrite IH; [rewrite <- app_assoc; reflexivity|]. rewrite <- app_assoc. exact H.
    + rewrite map_app in H. apply (keys_distinct_app _ _ _ H).
Qed.

Lemma dict_of_distinct (d : dict) : keys_distinct (map fst d) = true -> dict_of d = d.
Proof. intros H. unfold dict_of. apply (dict_of_fold d []). exact H. Qed.

Lemma dict_get_distinct (d : dict) (k : pystr) (x : pyval) :
  keys_distinct (map fst d) = true -> In (k, x) d -> dict_get d k = Some x.
Proof.
  induction d as [|[k' x'] d IH]; intros Hd Hin; [destruct Hin|].
  cbn [map fst keys_distinct] in Hd. apply andb_true_iff in Hd as [H1 H2].
  cbn [dict_get]. destruct (list_eq_dec Z.eq_dec k' k) as [->|Hne].
  - destruct Hin as [E|Hin]; [injection E as ->; reflexivity|].
    exfalso. apply negb_true_iff in H1.
    match type of H1 with existsb ?f ?l = _ => assert (E : existsb f l = true) end.
    { apply existsb_exists. exists k. split; [apply (in_map fst _ _ Hin)|].
      destruct (list_eq_dec Z.eq_dec k k); [reflexivity|contradiction]. }
    rewrite E in H1. discriminate.
  - destruct Hin as [E|Hin]; [injection E as -> _; contradiction|]. apply IH; assumption.
Qed.

Lemma dumps_nonempty (v : pyval) : json_value_ok v = true -> dumps v <> [].
Proof. intros Hok. destruct (dumps_head_props v Hok) as [c [t [-> _]]]. discriminate. Qed.

(** [scan_once] reads back what [dumps] writes, followed by anything a
    JSON text written by [dumps] may have after a value. *)
Lemma parse_dumps (fuel : nat) :
  forall v rec rest, json_value_ok v = true -> (depth v <= rec)%nat ->
  (List.length (dumps v) < fuel)%nat -> value_end rest = true ->
  exists j, parse_value fuel rec (dumps v ++ rest) = Scanned (j, rest) /\ to_py j = v.
Proof.
  induction fuel as [|f IH]; intros v rec rest Hok Hd Hl He; [lia|].
  destruct v as [| b | z | l | s | l | d].
  - exists JNull. split; reflexivity.
  - destruct b; [exists (JBool true) | exists (JBool false)]; split; reflexivity.
  - exists (JInt z). cbn [json_value_ok] in Hok. apply Nat.leb_le in Hok.
    pose proof (scan_number_int z Hok) as Hs. cbn [dumps].
    rewrite parse_value_number by (apply number_start_app; exact (scan_number_head _ _ Hs)).
    rewrite (scan_number_app _ _ He), Hs. split; reflexivity.
  - exists (JFloat l). cbn [json_value_ok] in Hok.
    pose proof (float_lexeme_scan l Hok) as Hs. cbn [dumps].
    rewrite parse_value_number by (apply number_start_app; exact (scan_number_head _ _ Hs)).
    rewrite (scan_number_app _ _ He), Hs. split; reflexivity.
  - exists (JStr s). cbn [json_value_ok] in Hok. cbn [dumps]. unfold dumps_str.
    replace (([34] ++ flat_map ascii_escape s ++ [34]) ++ rest)
      with (34 :: flat_map ascii_escape s ++ 34 :: rest) by (rewrite <- !app_assoc; reflexivity).
    rewrite parse_value_quote, (scan_dumps_text _ _ Hok). split; reflexivity.
  - cbn [depth] in Hd. destruct rec as [|rec]; [lia|].
    cbn [json_value_ok] in Hok. rewrite forallb_forall in Hok.
    destruct l as [|x l'].
    + exists (JArr []). split; reflexivity.
    + set (l := x :: l') in *.
      assert (Hlen : List.length (dumps (PList l)) = S (S (List.length (py_join (s2c ", ") (map dumps l)))))
        by (cbn [dumps]; rewrite !length_app; cbn [List.length]; lia).
      assert (Hs : dumps (PList l) ++ rest = 91 :: py_join (s2c ", ") (map dumps l) ++ 93 :: rest)
        by (cbn [dumps]; rewrite <- !app_assoc; reflexivity).
      destruct (dumps_head_props x (Hok x (or_introl eq_refl))) as [c [t [Hct [Hw [H93 _]]]]].
      assert (Hj : exists u, py_join (s2c ", ") (map dumps l) ++ 93 :: rest = c :: u)
        by (subst l; cbn [map]; rewrite py_join_head, Hct; eexists; reflexivity).
      destruct Hj as [u Hu].
      rewrite Hs, Hu, (parse_value_array _ _ _ _ Hw H93).
      assert (Hch : Forall (fun y => json_value_ok y = true /\
                     forall r, value_end r = true ->
                     exists j, parse_value f rec (dumps y ++ r) = Scanned (j, r) /\ to_py j = y) l).
      { apply Forall_forall. intros y Hy. split; [exact (Hok y Hy)|]. intros r Hr.
        apply IH; [exact (Hok y Hy) | | | exact Hr].
        - apply (Nat.le_trans _ (list_max (map depth l))); [|lia].
          apply list_max_in, in_map, Hy.
        - pose proof (py_join_length_in (s2c ", ") _ _ (in_map dumps _ _ Hy)). lia. }
      assert (Hcount : (List.length l <= f)%nat).
      { pose proof (py_join_length_count (s2c ", ") (map dumps l)) as Hc.
        rewrite length_map in Hc. enough (Forall (fun s => s <> []) (map dumps l)) by (specialize (Hc H); lia).
        apply Forall_map, Forall_forall. intros y Hy. apply dumps_nonempty, Hok, Hy. }
      destruct (parse_elements_dumps (parse_value f rec) l f [] (c :: u) rest
                  ltac:(discriminate) Hcount Hch (eq_sym Hu)) as [js [H1 H2]].
      exists (JArr js). rewrite H1. split; [reflexivity|]. cbn [to_py]. rewrite H2. reflexivity.
  - cbn [depth] in Hd. destruct rec as [|rec]; [lia|].
    cbn [json_value_ok] in Hok. apply andb_true_iff in Hok as [Hok Hkeys].
    rewrite forallb_forall in Hok.
    destruct d as [|[k x] d'].
    + exists (JObj []). split; reflexivity.
    + set (d := (k, x) :: d') in *.
      set (items := map (fun '(k, x) => dumps_str k ++ s2c ": " ++ dumps x) d).
      assert (Hlen : List.length (dumps (PDict d)) = S (S (List.length (py_join (s2c ", ") items))))
        by (subst items; cbn [dumps]; rewrite !length_app; cbn [List.length]; lia).
      assert (Hs : dumps (PDict d) ++ rest = 123 :: py_join (s2c ", ") items ++ 125 :: rest)
        by (cbn [dumps]; rewrite <- !app_assoc; reflexivity).
      assert (Hj : exists u, py_join (s2c ", ") items ++ 125 :: rest = 34 :: u)
        by (subst items d; cbn [map]; rewrite py_join_head; unfold dumps_str; eexists; reflexivity).
      destruct Hj as [u Hu].
      rewrite Hs, Hu, parse_value_object.
      assert (Hitem : forall k y, In (k, y) d ->
                (List.length (dumps y) <= List.length (py_join (s2c ", ") items))%nat).
      { intros k0 y Hy.
        assert (Hin : In (dumps_str k0 ++ s2c ": " ++ dumps y) items)
          by (subst items; apply (in_map (fun '(k, x) => dumps_str k ++ s2c ": " ++ dumps x) _ _ Hy)).
        pose proof (py_join_length_in (s2c ", ") _ _ Hin). rewrite !length_app in H. lia. }
      assert (Hch : Forall (fun kx => valid_text (fst kx) = true /\ json_value_ok (snd kx) = true /\
                     forall r, value_end r = true ->
                     exists j, parse_value f rec (dumps (snd kx) ++ r) = Scanned (j, r) /\
                               to_py j = snd kx) d).
      { apply Forall_forall. intros [k0 y] Hy. cbn [fst snd].
        pose proof (Hok _ Hy) as Hky. cbn beta iota in Hky. apply andb_true_iff in Hky as [Hk Hy'].
        split; [exact Hk|]. split; [exact Hy'|]. intros r Hr.
        apply IH; [exact Hy' | | | exact Hr].
        - apply (Nat.le_trans _ (list_max (map (fun '(_, x) => depth x) d))); [|lia].
          apply list_max_in. apply (in_map (fun '(_, x) => depth x) _ _ Hy).
        - pose proof (Hitem _ _ Hy). lia. }
      assert (Hcount : (List.length d <= f)%nat).
      { pose proof (py_join_length_count (s2c ", ") items) as Hc.
        subst items. rewrite length_map in Hc.
        enough (Forall (fun s => s <> []) (map (fun '(k, x) => dumps_str k ++ s2c ": " ++ dumps x) d))
          by (specialize (Hc H); lia).
        apply Forall_map, Forall_forall. intros [k0 y] _. unfold dumps_str. discriminate. }
      destruct (parse_members_dumps (parse_value f rec) d f [] (34 :: u) rest
                  ltac:(discriminate) Hcount Hch (eq_sym Hu)) as [ms [H1 H2]].
      exists (JObj ms). rewrite H1. split; [reflexivity|]. cbn [to_py]. rewrite H2.
      rewrite (dict_of_distinct _ Hkeys). reflexivity.
Qed.

(** [json.loads(json.dumps(v)) == v] for every value [json.dumps] writes
    and [json.loads] reads back, given the recursion levels its nesting
    needs. *)
Lemma json_loads_dumps (v : pyval) (rec : nat) :
  json_value_ok v = true -> (depth v <= rec)%nat -> json_loads rec (dumps v) = Scanned v.
Proof.
  intros Hok Hd. unfold json_loads, parse_json.
  destruct (dumps_head_props v Hok) as [c [t [Hct [Hw [_ [_ Hb]]]]]].
  replace (prefixb [65279] (dumps v)) with false
    by (rewrite Hct; cbn [prefixb]; rewrite (proj2 (Z.eqb_neq 65279 c)) by lia; reflexivity).
  replace (skip_ws (dumps v)) with (dumps v ++ [])
    by (rewrite app_nil_r, Hct; cbn [skip_ws]; rewrite Hw; reflexivity).
  destruct (parse_dumps (S (List.length (dumps v))) v rec [] Hok Hd ltac:(lia) eq_refl) as [j [H1 H2]].
  rewrite H1. cbn [skip_ws]. rewrite H2. reflexivity.
Qed.

(** ** C6 *)

(** C6: a recipe record written by [json.dumps] (a dict whose keys include
    the seven recipe keys, with values [json.dumps] writes and
    [json.loads] reads back, and whose nesting fits the recursion levels
    left) is parsed back by line 147 into the same dict; line 148 stores
    the narration script it holds, and [.get] of each of its keys, with
    any default, returns exactly the value written. *)
Theorem recipe_record_roundtrip (d : dict) (rec : nat) :
  json_value_ok (PDict d) = true -> (depth (PDict d) <= rec)%nat ->
  Forall (fun k => In k (map fst d)) recipe_keys ->
  json_loads rec (dumps (PDict d)) = Scanned (PDict d) /\
  (exists narr, In (s2c "narration_script", narr) d /\
     app_parse rec (dumps (PDict d)) = Stored (PDict d) narr) /\
  (forall k x default, In (k, x) d -> dict_get_default d k default = x).
Proof.
  intros Hok Hd Hk.
  assert (Hkeys : keys_distinct (map fst d) = true)
    by (cbn [json_value_ok] in Hok; apply andb_true_iff in Hok as [_ H]; exact H).
  assert (Hget : forall k x default, In (k, x) d -> dict_get_default d k default = x)
    by (intros k x default Hin; unfold dict_get_default; rewrite (dict_get_distinct _ _ _ Hkeys Hin);
        reflexivity).
  pose proof (json_loads_dumps _ _ Hok Hd) as Hl.
  split; [exact Hl|]. split; [|exact Hget].
  assert (Hn : In (s2c "narration_script") (map fst d))
    by (rewrite Forall_forall in Hk; apply Hk; cbn; tauto).
  apply in_map_iff in Hn as [[k narr] [Ek Hin]]. cbn [fst] in Ek. subst k.
  exists narr. split; [exact Hin|].
  unfold app_parse. rewrite Hl. rewrite (Hget _ _ _ Hin). reflexivity.
Qed.

Lemma recipe_record_roundtrip_witness :
  json_value_ok (PDict sample_record) = true /\ (depth (PDict sample_record) <= 2)%nat /\
  Forall (fun k => In k (map fst sample_record)) recipe_keys /\
  json_loads 2 (dumps (PDict sample_record)) = Scanned (PDict sample_record) /\
  (exists narr, In (s2c "narration_script", narr) sample_record /\
     app_parse 2 (dumps (PDict sample_record)) = Stored (PDict sample_record) narr) /\
  (forall k x default, In (k, x) sample_record -> dict_get_default sample_record k default = x).
Proof.
  assert (H1 : json_value_ok (PDict sample_record) = true) by (vm_compute; reflexivity).
  assert (H2 : (depth (PDict sample_record) <= 2)%nat) by (vm_compute; lia).
  assert (H3 : Forall (fun k => In k (map fst sample_record)) recipe_keys)
    by (unfold recipe_keys; cbn [map]; repeat (apply Forall_cons || apply Forall_nil);
        vm_compute; repeat (first [left; reflexivity | right])).
  split; [exact H1|]. split; [exact H2|]. split; [exact H3|].
  exact (recipe_record_roundtrip sample_record 2 H1 H2 H3).
Defined.

(** ** C7 *)

Lemma display_checks (kv : pystr * pyval) (d : dict) (cuisine : pystr) :
  display (PDict (kv :: d)) cuisine =
  if negb (metric_accepts (dict_get_default (kv :: d) (s2c "cuisine") (PStr cuisine)))
  then DisplayRaised metric_type_error
  else if negb (py_iterable (dict_get_default (kv :: d) (s2c "ingredients_used") (PList [])))
  then DisplayRaised not_iterable_error
  else if negb (py_iterable (dict_get_default (kv :: d) (s2c "instructions") (PList [])))
  then DisplayRaised not_iterable_error
  else Shown {| v_title := dict_get_default (kv :: d) (s2c "title") (PStr (s2c "A Delightful Creation"));
                v_prep_time := dict_get_default (kv :: d) (s2c "prep_time_minutes") (PStr (s2c "?"));
                v_cuisine := dict_get_default (kv :: d) (s2c "cuisine") (PStr cuisine);
                v_description := dict_get_default (kv :: d) (s2c "description") (PStr []);
                v_ingredients := dict_get_default (kv :: d) (s2c "ingredients_used") (PList []);
                v_instructions := dict_get_default (kv :: d) (s2c "instructions") (PList []) |}.
Proof. reflexivity. Qed.

(** C7 (counterexample): two JSON objects the parse step stores without
    complaint, whose missing keys are never shown as placeholders.  In
    [{"ingredients_used": 5}] the present key breaks the loop of line 177
    with a [TypeError] before [instructions] is reached; [{}] lacks all
    seven keys but is falsy, so the display block of line 158 does not
    run at all. *)
Theorem missing_keys_without_placeholders :
  app_parse 900 (pylit "{'ingredients_used': 5}") =
    Stored (PDict [(s2c "ingredients_used", PInt 5)]) (PStr (s2c "No script generated.")) /\
  dict_get [(s2c "ingredients_used", PInt 5)] (s2c "instructions") = None /\
  display (PDict [(s2c "ingredients_used", PInt 5)]) (s2c "Italian") = DisplayRaised not_iterable_error /\
  app_parse 900 (s2c "{}") = Stored (PDict []) (PStr (s2c "No script generated.")) /\
  display (PDict []) (s2c "Italian") = NotShown.
Proof. repeat split; vm_compute; reflexivity. Qed.

(** C7 (amended): a JSON object is stored whatever keys it lacks, a
    missing [narration_script] becoming ['No script generated.'].  An
    empty object is not displayed.  A non-empty one is displayed with
    each missing display key replaced by its placeholder when the keys
    it has fit the display: [cuisine] a value [st.metric] accepts,
    [ingredients_used] and [instructions] iterable; otherwise the display
    raises a [TypeError]. *)
Theorem parsed_objects_missing_keys (rec : nat) (r : pystr) (d : dict) (cuisine : pystr) :
  json_loads rec r = Scanned (PDict d) ->
  (exists narr, app_parse rec r = Stored (PDict d) narr /\
     (dict_get d (s2c "narration_script") = None -> narr = PStr (s2c "No script generated."))) /\
  (d = [] -> display (PDict d) cuisine = NotShown) /\
  (d <> [] ->
   (forall x, dict_get d (s2c "cuisine") = Some x -> metric_accepts x = true) ->
   (forall x, dict_get d (s2c "ingredients_used") = Some x -> py_iterable x = true) ->
   (forall x, dict_get d (s2c "instructions") = Some x -> py_iterable x = true) ->
   exists v, display (PDict d) cuisine = Shown v /\
     (dict_get d (s2c "title") = None -> v_title v = PStr (s2c "A Delightful Creation")) /\
     (dict_get d (s2c "prep_time_minutes") = None -> v_prep_time v = PStr (s2c "?")) /\
     (dict_get d (s2c "cuisine") = None -> v_cuisine v = PStr cuisine) /\
     (dict_get d (s2c "description") = None -> v_description v = PStr []) /\
     (dict_get d (s2c "ingredients_used") = None -> v_ingredients v = PList []) /\
     (dict_get d (s2c "instructions") = None -> v_instructions v = PList [])) /\
  (d <> [] ->
   (exists x, dict_get d (s2c "cuisine") = Some x /\ metric_accepts x = false) \/
   (exists x, dict_get d (s2c "ingredients_used") = Some x /\ py_iterable x = false) \/
   (exists x, dict_get d (s2c "instructions") = Some x /\ py_iterable x = false) ->
   exists e, display (PDict d) cuisine = DisplayRaised e /\ prefixb (s2c "TypeError") e = true).
Proof.
  intros Hl. split; [|split; [|split]].
  - eexists. unfold app_parse. rewrite Hl. split; [reflexivity|].
    intros Hn. unfold dict_get_default. rewrite Hn. reflexivity.
  - intros ->. reflexivity.
  - intros Hd Hc Hi Hs. destruct d as [|kv d]; [congruence|].
    rewrite display_checks.
    replace (metric_accepts (dict_get_default (kv :: d) (s2c "cuisine") (PStr cuisine))) with true
      by (unfold dict_get_default; destruct (dict_get (kv :: d) (s2c "cuisine")) eqn:E;
          [symmetry; apply Hc; reflexivity | reflexivity]).
    replace (py_iterable (dict_get_default (kv :: d) (s2c "ingredients_used") (PList []))) with true
      by (unfold dict_get_default; destruct (dict_get (kv :: d) (s2c "ingredients_used")) eqn:E;
          [symmetry; apply Hi; reflexivity | reflexivity]).
    replace (py_iterable (dict_get_default (kv :: d) (s2c "instructions") (PList []))) with true
      by (unfold dict_get_default; destruct (dict_get (kv :: d) (s2c "instructions")) eqn:E;
          [symmetry; apply Hs; reflexivity | reflexivity]).
    cbn [negb]. eexists. split; [reflexivity|].
    cbn [v_title v_prep_time v_cuisine v_description v_ingredients v_instructions].
    unfold dict_get_default. repeat split; intros H; rewrite H; reflexivity.
  - intros Hd Hbad. destruct d as [|kv d]; [congruence|].
    rewrite display_checks.
    destruct (metric_accepts (dict_get_default (kv :: d) (s2c "cuisine") (PStr cuisine))) eqn:A1;
      cbn [negb]; [|eexists; split; [reflexivity | vm_compute; reflexivity]].
    destruct (py_iterable (dict_get_default (kv :: d) (s2c "ingredients_used") (PList []))) eqn:A2;
      cbn [negb]; [|eexists; split; [reflexivity | vm_compute; reflexivity]].
    destruct (py_iterable (dict_get_default (kv :: d) (s2c "instructions") (PList []))) eqn:A3;
      cbn [negb]; [|eexists; split; [reflexivity | vm_compute; reflexivity]].
    exfalso. unfold dict_get_default in A1, A2, A3.
    destruct Hbad as [[x [E B]] | [[x [E B]] | [x [E B]]]]; rewrite E in *; congruence.
Qed.

Lemma parsed_objects_missing_keys_witness :
  json_loads 900 (pylit "{'title': 'Soup', 'instructions': ['Boil.']}") =
    Scanned (PDict [(s2c "title", PStr (s2c "Soup")); (s2c "instructions", PList [PStr (s2c "Boil.")])]) /\
  exists v, display (PDict [(s2c "title", PStr (s2c "Soup")); (s2c "instructions", PList [PStr (s2c "Boil.")])])
              (s2c "Italian") = Shown v /\ v_ingredients v = PList [].
Proof.
  assert (Hl : json_loads 900 (pylit "{'title': 'Soup', 'instructions': ['Boil.']}") =
    Scanned (PDict [(s2c "title", PStr (s2c "Soup")); (s2c "instructions", PList [PStr (s2c "Boil.")])]))
    by (vm_compute; reflexivity).
  split; [exact Hl|].
  destruct (parsed_objects_missing_keys 900 _ _ (s2c "Italian") Hl) as [_ [_ [H _]]].
  destruct (H ltac:(discriminate) ltac:(intros x E; vm_compute in E; discriminate)
              ltac:(intros x E; vm_compute in E; discriminate)
              ltac:(intros x E; vm_compute in E; injection E as <-; reflexivity))
    as [v [Hv [_ [_ [_ [_ [Hi _]]]]]]].
  exists v. split; [exact Hv|]. apply Hi. vm_compute. reflexivity.
Defined.

(** ** C8 *)

(** C8: generate_recipe_video returns the same constant URL for any title
    and any narration script. *)
Theorem video_url_constant {A B : Type} (title1 title2 : A) (script1 script2 : B) :
  generate_recipe_video title1 script1 = s2c "https://www.youtube.com/watch?v=kY3NfQGz29Q" /\
  generate_recipe_video title1 script1 = generate_recipe_video title2 script2.
Proof. split; reflexivity. Qed.

(** ** C9 *)

(** C9: each JSON error object generate_recipe returns parses (whenever
    [json.loads] has a recursion level left), is stored
    as [recipe_data] and is displayed as a recipe made only of
    placeholders; the display never looks at the [error] key. *)
Theorem error_objects_shown_as_recipes (w : world) (ing cuisine : pystr) (max_time : Z)
    (dietary_filters : list pystr) (tr : calls) (r : pystr) (rec : nat) :
  fst (generate_recipe w ing cuisine max_time dietary_filters tr) = Ret r ->
  In r [err_no_client; err_client_init; err_no_food; err_api] ->
  exists msg,
    app_parse (S rec) r = Stored (PDict [(s2c "error", PStr msg)]) (PStr (s2c "No script generated.")) /\
    display (PDict [(s2c "error", PStr msg)]) cuisine = Shown (placeholder_view cuisine).
Proof.
  intros _ Hr.
  destruct Hr as [<-|[<-|[<-|[<-|[]]]]]; eexists; split; vm_compute; reflexivity.
Qed.

Lemma error_objects_shown_as_recipes_witness :
  let w := world_of (Some (s2c "key")) None (ApiRaise (s2c "503 Service Unavailable")) in
  fst (generate_recipe w (s2c "['2 eggs']") (s2c "Italian") 30 [] []) = Ret err_api /\
  In err_api [err_no_client; err_client_init; err_no_food; err_api] /\
  exists msg,
    app_parse 900 err_api = Stored (PDict [(s2c "error", PStr msg)]) (PStr (s2c "No script generated.")) /\
    display (PDict [(s2c "error", PStr msg)]) (s2c "Italian") = Shown (placeholder_view (s2c "Italian")).
Proof.
  intros w. split; [vm_compute; reflexivity|].
  split; [right; right; right; left; reflexivity|].
  apply (error_objects_shown_as_recipes w (s2c "['2 eggs']") (s2c "Italian") 30 [] [] err_api 899);
    [vm_compute; reflexivity|right; right; right; left; reflexivity].
Defined.

(** * Further properties of the code *)

(** ** Equations of the two model-calling functions *)

Lemma identify_ingredients_eq (w : world) (f : uploaded_file) (tr : calls) :
  identify_ingredients w f tr =
  match key_resolved w with
  | None => (Ret (s2c "Error: Gemini API key is missing from Streamlit secrets."), tr)
  | Some k =>
      match client_init w k with
      | Some _ => (Ret (s2c "Error: AI client failed to initialize with key."), tr)
      | None =>
          match model_call w (identify_contents f) with
          | ApiRaise e => (Ret (s2c "Error during API call: " ++ e), tr ++ [identify_contents f])
          | ApiText None =>
              (Ret (s2c "Error during API call: " ++ s2c "'NoneType' object has no attribute 'strip'"),
               tr ++ [identify_contents f])
          | ApiText (Some t) => (Ret (strip_fences (s2c "python") t), tr ++ [identify_contents f])
          end
      end
  end.
Proof.
  unfold identify_ingredients, identify_contents, bind, try_except, client_new, ret,
    generate_content, response_text.
  rewrite get_gemini_api_key_eq.
  destruct (key_resolved w) as [k|] eqn:Ek; [|reflexivity].
  rewrite (key_resolved_truthy _ _ Ek). simpl negb. cbv iota.
  destruct (client_init w k); [reflexivity|].
  destruct (model_call w _) as [e|[t|]]; reflexivity.
Qed.

Lemma generate_recipe_eq (w : world) (ing cuisine : pystr) (max_time : Z)
    (dietary_filters : list pystr) (tr : calls) :
  generate_recipe w ing cuisine max_time dietary_filters tr =
  match key_resolved w with
  | None => (Ret err_no_client, tr)
  | Some k =>
      match client_init w k with
      | Some _ => (Ret err_client_init, tr)
      | None =>
          if contains sentinel ing then (Ret err_no_food, tr) else
          let c := recipe_contents ing cuisine max_time dietary_filters in
          match model_call w c with
          | ApiText (Some t) => (Ret (strip_fences (s2c "json") t), tr ++ [c])
          | _ => (Ret err_api, tr ++ [c])
          end
      end
  end.
Proof.
  unfold generate_recipe, recipe_contents, bind, try_except, client_new, ret,
    generate_content, response_text.
  rewrite get_gemini_api_key_eq.
  destruct (key_resolved w) as [k|] eqn:Ek; [|reflexivity].
  rewrite (key_resolved_truthy _ _ Ek). simpl negb. cbv iota.
  destruct (client_init w k); [reflexivity|].
  destruct (contains sentinel ing); [reflexivity|].
  destruct (model_call w _) as [e|[t|]]; reflexivity.
Qed.

(** ** Containment in concatenations *)

Lemma contains_app_right (p a b : pystr) : contains p b = true -> contains p (a ++ b) = true.
Proof.
  induction a as [|x a IH]; intros H; [exact H|].
  simpl. rewrite (IH H). apply orb_true_r.
Qed.

Lemma contains_app_left (p a b : pystr) : contains p a = true -> contains p (a ++ b) = true.
Proof.
  induction a as [|x a IH]; intros H.
  - simpl in H. destruct p; [destruct b; reflexivity|discriminate].
  - rewrite contains_cons in H. simpl app. rewrite contains_cons.
    apply orb_true_iff in H as [H|H].
    + pose proof (prefixb_app_r _ (x :: a) b H) as E. simpl app in E.
      rewrite E. reflexivity.
    + rewrite (IH H). apply orb_true_r.
Qed.

Lemma prefixb_refl (p : pystr) : prefixb p p = true.
Proof. induction p as [|x p IH]; [reflexivity|]. simpl. rewrite Z.eqb_refl, IH. reflexivity. Qed.

Lemma contains_head (p b : pystr) : contains p (p ++ b) = true.
Proof.
  destruct (p ++ b) as [|c t] eqn:E; simpl.
  - destruct p; [reflexivity|discriminate].
  - rewrite <- E, prefixb_app_r; [reflexivity|apply prefixb_refl].
Qed.

Lemma contains_self (p : pystr) : contains p p = true.
Proof. rewrite <- (app_nil_r p) at 2. apply contains_head. Qed.

Lemma contains_py_join (sep x : pystr) (xs : list pystr) :
  In x xs -> contains x (py_join sep xs) = true.
Proof.
  induction xs as [|y ys IH]; intros H; [destruct H|].
  destruct H as [<-|H].
  - destruct ys; [apply contains_self|apply contains_head].
  - destruct ys as [|z zs]; [destruct H|].
    change (py_join sep (y :: z :: zs)) with (y ++ sep ++ py_join sep (z :: zs)).
    apply contains_app_right, contains_app_right, IH, H.
Qed.

Ltac find_in :=
  first
    [ apply contains_self
    | apply contains_head
    | solve [apply contains_py_join; assumption]
    | apply contains_app_right; find_in
    | apply contains_app_left; find_in ].

(** ** X: get_gemini_api_key *)

(** A non-empty secret is returned whatever the environment holds. *)
Theorem get_key_prefers_secret (w : world) (k : pystr) (tr : calls) :
  secret_key w = Some k -> truthy k = true ->
  get_gemini_api_key w tr = (Ret (Some k), tr).
Proof.
  intros Hs Hk. unfold get_gemini_api_key, try_except, bind, secrets_get.
  rewrite Hs. simpl. rewrite Hk. reflexivity.
Qed.

Lemma get_key_prefers_secret_witness :
  secret_key (world_of (Some (s2c "secret")) (Some (s2c "env")) (ApiText None)) = Some (s2c "secret") /\
  truthy (s2c "secret") = true /\
  get_gemini_api_key (world_of (Some (s2c "secret")) (Some (s2c "env")) (ApiText None)) []
  = (Ret (Some (s2c "secret")), []).
Proof.
  split; [reflexivity|]. split; [reflexivity|].
  apply get_key_prefers_secret; reflexivity.
Defined.

(** When the secrets lookup raises, the environment variable is used if
    it is set and non-empty; otherwise no key is returned. *)
Theorem get_key_env_fallback (w : world) (tr : calls) :
  secret_key w = None ->
  (forall k, env_key w = Some k -> truthy k = true -> get_gemini_api_key w tr = (Ret (Some k), tr)) /\
  ((env_key w = None \/ env_key w = Some []) -> get_gemini_api_key w tr = (Ret None, tr)).
Proof.
  intros Hs. unfold get_gemini_api_key, try_except, bind, secrets_get. rewrite Hs. simpl.
  split.
  - intros k He Hk. rewrite He, Hk. reflexivity.
  - intros [He|He]; rewrite He; reflexivity.
Qed.

Lemma get_key_env_fallback_witness :
  secret_key (world_of None (Some (s2c "env")) (ApiText None)) = None /\
  (forall k, env_key (world_of None (Some (s2c "env")) (ApiText None)) = Some k -> truthy k = true ->
     get_gemini_api_key (world_of None (Some (s2c "env")) (ApiText None)) [] = (Ret (Some k), [])) /\
  ((env_key (world_of None (Some (s2c "env")) (ApiText None)) = None \/
    env_key (world_of None (Some (s2c "env")) (ApiText None)) = Some []) ->
   get_gemini_api_key (world_of None (Some (s2c "env")) (ApiText None)) [] = (Ret None, [])).
Proof. split; [reflexivity|]. apply get_key_env_fallback. reflexivity. Defined.

(** The lookup never raises, makes no model call and never returns an
    empty key. *)
Theorem get_key_never_empty (w : world) (tr : calls) :
  exists key, get_gemini_api_key w tr = (Ret key, tr) /\
              forall k, key = Some k -> truthy k = true.
Proof.
  exists (key_resolved w). split; [apply get_gemini_api_key_eq|].
  apply key_resolved_truthy.
Qed.

(** ** X: the model calls of identify_ingredients and generate_recipe *)

(** identify_ingredients calls the model at most once, with the image
    bytes, the file's MIME type and the prompt; it does so exactly when a
    key resolves and the client is constructed. *)
Theorem identify_ingredients_calls (w : world) (f : uploaded_file) (tr : calls) :
  snd (identify_ingredients w f tr) =
  match key_resolved w with
  | Some k => match client_init w k with None => tr ++ [identify_contents f] | Some _ => tr end
  | None => tr
  end.
Proof.
  rewrite identify_ingredients_eq.
  destruct (key_resolved w) as [k|]; [|reflexivity].
  destruct (client_init w k); [reflexivity|].
  destruct (model_call w _) as [e|[t|]]; reflexivity.
Qed.

(** generate_recipe calls the model at most once, with the recipe prompt;
    it does so exactly when a key resolves, the client is constructed and
    the ingredient text does not contain the sentinel. *)
Theorem generate_recipe_calls (w : world) (ing cuisine : pystr) (max_time : Z)
    (dietary_filters : list pystr) (tr : calls) :
  snd (generate_recipe w ing cuisine max_time dietary_filters tr) =
  match key_resolved w with
  | Some k =>
      match client_init w k with
      | None => if contains sentinel ing then tr
                else tr ++ [recipe_contents ing cuisine max_time dietary_filters]
      | Some _ => tr
      end
  | None => tr
  end.
Proof.
  rewrite generate_recipe_eq.
  destruct (key_resolved w) as [k|]; [|reflexivity].
  destruct (client_init w k); [reflexivity|].
  destruct (contains sentinel ing); [reflexivity|]. cbv zeta.
  destruct (model_call w (recipe_contents ing cuisine max_time dietary_filters)) as [e|[t|]];
    reflexivity.
Qed.

(** The recipe prompt contains the ingredient text, the cuisine, the
    decimal form of the maximum time and every selected dietary filter,
    each verbatim. *)
Theorem recipe_prompt_mentions_inputs (ing cuisine : pystr) (max_time : Z)
    (dietary_filters : list pystr) :
  let p := recipe_prompt ing cuisine max_time dietary_filters in
  contains ing p = true /\ contains cuisine p = true /\
  contains (py_str_int max_time) p = true /\
  (forall d, In d dietary_filters -> contains d p = true).
Proof.
  intros p. unfold p, recipe_prompt, recipe_constraints.
  split; [find_in|]. split; [find_in|]. split; [find_in|].
  intros d Hd. destruct dietary_filters as [|x xs]; [destruct Hd|].
  find_in.
Qed.

(** On a successful model reply, identify_ingredients returns the reply
    cleaned of its fences, and so does generate_recipe for an ingredient
    text without the sentinel; neither cleaned text contains a fence. *)
Theorem successful_replies_are_cleaned (w : world) (k : pystr) (f : uploaded_file)
    (ing cuisine : pystr) (max_time : Z) (dietary_filters : list pystr) (tr : calls) (t g : pystr) :
  key_resolved w = Some k -> client_init w k = None ->
  (model_call w (identify_contents f) = ApiText (Some t) ->
   fst (identify_ingredients w f tr) = Ret (strip_fences (s2c "python") t) /\
   contains fence (strip_fences (s2c "python") t) = false) /\
  (contains sentinel ing = false ->
   model_call w (recipe_contents ing cuisine max_time dietary_filters) = ApiText (Some g) ->
   fst (generate_recipe w ing cuisine max_time dietary_filters tr) = Ret (strip_fences (s2c "json") g) /\
   contains fence (strip_fences (s2c "json") g) = false).
Proof.
  intros Hk Hc. split.
  - intros Hm. rewrite identify_ingredients_eq, Hk, Hc, Hm. split; [reflexivity|].
    apply (replace_fence_no_fence _ _ (le_n _)).
  - intros Hs Hm. rewrite generate_recipe_eq, Hk, Hc, Hs. cbv zeta. rewrite Hm.
    split; [reflexivity|]. apply (replace_fence_no_fence _ _ (le_n _)).
Qed.

Lemma successful_replies_are_cleaned_witness :
  let w := world_of (Some (s2c "key")) None (ApiText (Some (s2c "```python
['2 eggs']
```"))) in
  key_resolved w = Some (s2c "key") /\ client_init w (s2c "key") = None /\
  (model_call w (identify_contents sample_upload) = ApiText (Some (s2c "```python
['2 eggs']
```")) ->
   fst (identify_ingredients w sample_upload []) = Ret (strip_fences (s2c "python") (s2c "```python
['2 eggs']
```")) /\
   contains fence (strip_fences (s2c "python") (s2c "```python
['2 eggs']
```")) = false) /\
  (contains sentinel (s2c "['2 eggs']") = false ->
   model_call w (recipe_contents (s2c "['2 eggs']") (s2c "Any") 30 []) = ApiText (Some (s2c "```json
{}
```")) ->
   fst (generate_recipe w (s2c "['2 eggs']") (s2c "Any") 30 [] []) = Ret (strip_fences (s2c "json") (s2c "```json
{}
```")) /\
   contains fence (strip_fences (s2c "json") (s2c "```json
{}
```")) = false).
Proof.
  intros w. split; [vm_compute; reflexivity|]. split; [reflexivity|].
  apply (successful_replies_are_cleaned w (s2c "key")); [vm_compute; reflexivity|reflexivity].
Defined.


(** ** X: one run of streamlit_app.py *)

Lemma app_generate_error_ingredients (w : world) (pe : page_env) (f : uploaded_file) (cuisine : pystr)
    (max_time : Z) (dietary_filters : list pystr) (s : session) (tr tr1 : calls) (ing : pystr) :
  st_image pe f = None ->
  identify_ingredients w f tr = (Ret ing, tr1) ->
  contains (s2c "Error") ing = true ->
  app_generate w pe true (Some f) cuisine max_time dietary_filters s tr =
  (Ret (if truthy ing && contains sentinel ing then NoFoodDetected ing else TechnicalError ing),
   set_recipe_data s PNone, tr1).
Proof.
  intros Hs Hi He. unfold app_generate. rewrite Hs, Hi.
  destruct (truthy ing && contains sentinel ing); [reflexivity|]. rewrite He. reflexivity.
Qed.

(** Every string identify_ingredients returns on a failure contains [Error]. *)
Lemma identify_failure_mentions_error (w : world) (f : uploaded_file) (tr : calls) :
  transport_failure w (identify_contents f) = true ->
  exists ing, fst (identify_ingredients w f tr) = Ret ing /\ contains (s2c "Error") ing = true /\
    (snd (identify_ingredients w f tr) = tr \/ snd (identify_ingredients w f tr) = tr ++ [identify_contents f]).
Proof.
  unfold transport_failure. rewrite identify_ingredients_eq.
  destruct (key_resolved w) as [k|].
  - destruct (client_init w k).
    + intros _. eexists. split; [reflexivity|]. split; [vm_compute; reflexivity|left; reflexivity].
    + destruct (model_call w (identify_contents f)) as [e|[t|]]; cbn [fst snd]; intros H; try discriminate H;
        eexists; (split; [reflexivity|]); split; try (right; reflexivity);
        apply contains_app_left; vm_compute; reflexivity.
  - intros _. eexists. split; [reflexivity|]. split; [vm_compute; reflexivity|left; reflexivity].
Qed.

Lemma api_error_mentions_error (e : pystr) :
  contains (s2c "Error") (s2c "Error during API call: " ++ e) = true.
Proof. apply contains_app_left. vm_compute. reflexivity. Qed.

(** The run once the image request succeeded with a usable ingredient
    text: both model calls are made and the reply goes to [json.loads]. *)
Lemma app_generate_recipe_reply (w : world) (pe : page_env) (f : uploaded_file) (cuisine : pystr)
    (max_time : Z) (dietary_filters : list pystr) (s : session) (tr : calls) (k t g : pystr) :
  st_image pe f = None ->
  key_resolved w = Some k -> client_init w k = None ->
  model_call w (identify_contents f) = ApiText (Some t) ->
  truthy (strip_fences (s2c "python") t) = true ->
  contains sentinel (strip_fences (s2c "python") t) = false ->
  contains (s2c "Error") (strip_fences (s2c "python") t) = false ->
  model_call w (recipe_contents (strip_fences (s2c "python") t) cuisine max_time dietary_filters) = ApiText (Some g) ->
  app_generate w pe true (Some f) cuisine max_time dietary_filters s tr =
  let tr2 := tr ++ [identify_contents f; recipe_contents (strip_fences (s2c "python") t) cuisine max_time dietary_filters] in
  match json_loads (json_budget pe) (strip_fences (s2c "json") g) with
  | DecodeError =>
      (Ret (RecipeUnparsable (strip_fences (s2c "python") t) (strip_fences (s2c "json") g)),
       set_recipe_data s PNone, tr2)
  | OtherError e => (Exc e, s, tr2)
  | Scanned (PDict d) =>
      (Ret (RecipeParsed (strip_fences (s2c "python") t) (strip_fences (s2c "json") g)),
       set_narration_script (set_recipe_data s (PDict d))
         (dict_get_default d (s2c "narration_script") (PStr (s2c "No script generated."))), tr2)
  | Scanned v => (Exc attribute_error_get, set_recipe_data s v, tr2)
  end.
Proof.
  intros Hi Hk Hc Hm Ht Hs He Hg.
  unfold app_generate. rewrite Hi, identify_ingredients_eq, Hk, Hc, Hm.
  cbv beta iota. rewrite Ht, Hs, He. cbv beta iota.
  rewrite generate_recipe_eq, Hk, Hc, Hs. cbv zeta. rewrite Hg.
  destruct (json_loads (json_budget pe) (strip_fences (s2c "json") g)) as [[]| |];
    rewrite <- app_assoc; reflexivity.
Qed.

(** With no API key, pressing the button with a file that [st.image]
    displays shows the technical error, clears the stored recipe and
    calls the model not at all. *)
Theorem app_missing_key_no_calls (w : world) (pe : page_env) (f : uploaded_file) (cuisine : pystr)
    (max_time : Z) (dietary_filters : list pystr) (s : session) (tr : calls) :
  st_image pe f = None ->
  key_resolved w = None ->
  app_generate w pe true (Some f) cuisine max_time dietary_filters s tr =
  (Ret (TechnicalError (s2c "Error: Gemini API key is missing from Streamlit secrets.")),
   set_recipe_data s PNone, tr).
Proof.
  intros Hs Hk.
  rewrite (app_generate_error_ingredients _ _ _ _ _ _ _ tr tr
             (s2c "Error: Gemini API key is missing from Streamlit secrets.") Hs).
  - reflexivity.
  - rewrite identify_ingredients_eq, Hk. reflexivity.
  - vm_compute. reflexivity.
Qed.

Lemma app_missing_key_no_calls_witness :
  st_image sample_page sample_upload = None /\
  key_resolved (world_of None None (ApiText None)) = None /\
  app_generate (world_of None None (ApiText None)) sample_page true (Some sample_upload) (s2c "Any") 30 []
    init_session []
  = (Ret (TechnicalError (s2c "Error: Gemini API key is missing from Streamlit secrets.")),
     set_recipe_data init_session PNone, []).
Proof.
  split; [reflexivity|]. split; [vm_compute; reflexivity|].
  apply app_missing_key_no_calls; [reflexivity | vm_compute; reflexivity].
Defined.

(** When ingredient identification fails (no key, failing client, failing
    model call), the run ends in the no-food or technical-error branch,
    the stored recipe is cleared and no recipe is requested: at most the
    image request was made. *)
Theorem app_identify_failure_stops (w : world) (pe : page_env) (f : uploaded_file) (cuisine : pystr)
    (max_time : Z) (dietary_filters : list pystr) (s : session) (tr : calls) :
  st_image pe f = None ->
  transport_failure w (identify_contents f) = true ->
  exists ing s' tr',
    app_generate w pe true (Some f) cuisine max_time dietary_filters s tr =
      (Ret (if truthy ing && contains sentinel ing then NoFoodDetected ing else TechnicalError ing), s', tr') /\
    recipe_data s' = PNone /\ (tr' = tr \/ tr' = tr ++ [identify_contents f]).
Proof.
  intros Hs H. destruct (identify_failure_mentions_error w f tr H) as [ing [H1 [H2 H3]]].
  destruct (identify_ingredients w f tr) as [o tr1] eqn:Hi. cbn [fst snd] in H1, H3. subst o.
  exists ing, (set_recipe_data s PNone), tr1.
  split; [apply (app_generate_error_ingredients _ _ _ _ _ _ _ _ _ _ Hs Hi H2)|].
  split; [reflexivity|exact H3].
Qed.

Lemma app_identify_failure_stops_witness :
  st_image sample_page sample_upload = None /\
  transport_failure (world_of (Some (s2c "key")) None (ApiRaise (s2c "timeout"))) (identify_contents sample_upload) = true /\
  exists ing s' tr',
    app_generate (world_of (Some (s2c "key")) None (ApiRaise (s2c "timeout"))) sample_page true (Some sample_upload)
      (s2c "Any") 30 [] init_session [] =
      (Ret (if truthy ing && contains sentinel ing then NoFoodDetected ing else TechnicalError ing), s', tr') /\
    recipe_data s' = PNone /\ (tr' = [] \/ tr' = [] ++ [identify_contents sample_upload]).
Proof.
  split; [reflexivity|]. split; [vm_compute; reflexivity|].
  apply app_identify_failure_stops; [reflexivity | vm_compute; reflexivity].
Defined.

(** The model calls of every run in which the button is pressed with a
    file, whatever its outcome, exceptions included: if [st.image] raises,
    none; otherwise either at most the image request, or, when that
    request succeeded with a cleaned reply that is non-empty and contains
    neither the sentinel nor [Error], exactly the image request and then
    the recipe request built from that reply. *)
Theorem app_run_calls (w : world) (pe : page_env) (f : uploaded_file) (cuisine : pystr) (max_time : Z)
    (dietary_filters : list pystr) (s s' : session) (tr tr' : calls) (o : outcome app_branch) :
  app_generate w pe true (Some f) cuisine max_time dietary_filters s tr = (o, s', tr') ->
  (exists e, st_image pe f = Some e /\ o = Exc e /\ s' = s /\ tr' = tr) \/
  (st_image pe f = None /\ (tr' = tr \/ tr' = tr ++ [identify_contents f])) \/
  (st_image pe f = None /\
   exists t, model_call w (identify_contents f) = ApiText (Some t) /\
     truthy (strip_fences (s2c "python") t) = true /\
     contains sentinel (strip_fences (s2c "python") t) = false /\
     contains (s2c "Error") (strip_fences (s2c "python") t) = false /\
     tr' = tr ++ [identify_contents f;
                  recipe_contents (strip_fences (s2c "python") t) cuisine max_time dietary_filters]).
Proof.
  intros Happ. destruct (st_image pe f) as [e|] eqn:Hs.
  { left. exists e. unfold app_generate in Happ. rewrite Hs in Happ.
    injection Happ as <- <- <-. auto. }
  right. destruct (transport_failure w (identify_contents f)) eqn:Ht.
  - destruct (identify_failure_mentions_error w f tr Ht) as [ing [H1 [H2 H3]]].
    destruct (identify_ingredients w f tr) as [oi tr1] eqn:Hi. cbn [fst snd] in H1, H3. subst oi.
    rewrite (app_generate_error_ingredients _ _ _ _ _ _ _ _ _ _ Hs Hi H2) in Happ.
    injection Happ as _ _ <-. left. auto.
  - unfold transport_failure in Ht.
    destruct (key_resolved w) as [k|] eqn:Ek; [|discriminate Ht].
    destruct (client_init w k) eqn:Ec; [discriminate Ht|].
    destruct (model_call w (identify_contents f)) as [e|[t|]] eqn:Em; try discriminate Ht.
    set (ing := strip_fences (s2c "python") t) in *.
    assert (Hid : identify_ingredients w f tr = (Ret ing, tr ++ [identify_contents f]))
      by (rewrite identify_ingredients_eq, Ek, Ec, Em; reflexivity).
    unfold app_generate in Happ. rewrite Hs, Hid in Happ. cbv beta iota in Happ.
    destruct (truthy ing) eqn:E3.
    2: { cbn [andb] in Happ. destruct (contains (s2c "Error") ing);
         injection Happ as _ _ <-; left; auto. }
    destruct (contains sentinel ing) eqn:E1.
    { cbn [andb] in Happ. injection Happ as _ _ <-. left. auto. }
    destruct (contains (s2c "Error") ing) eqn:E2.
    { cbn [andb] in Happ. injection Happ as _ _ <-. left. auto. }
    cbn [andb] in Happ.
    right. split; [reflexivity|]. exists t. split; [reflexivity|].
    split; [exact E3|]. split; [exact E1|]. split; [exact E2|].
    destruct (model_call w (recipe_contents ing cuisine max_time dietary_filters)) as [e'|[g|]] eqn:Eg.
    + rewrite generate_recipe_eq, Ek, Ec, E1 in Happ. cbv zeta in Happ. rewrite Eg in Happ.
      destruct (json_loads (json_budget pe) err_api) as [[]| |];
        injection Happ as _ _ <-; rewrite <- app_assoc; reflexivity.
    + rewrite generate_recipe_eq, Ek, Ec, E1 in Happ. cbv zeta in Happ. rewrite Eg in Happ.
      destruct (json_loads (json_budget pe) (strip_fences (s2c "json") g)) as [[]| |];
        injection Happ as _ _ <-; rewrite <- app_assoc; reflexivity.
    + rewrite generate_recipe_eq, Ek, Ec, E1 in Happ. cbv zeta in Happ. rewrite Eg in Happ.
      destruct (json_loads (json_budget pe) err_api) as [[]| |];
        injection Happ as _ _ <-; rewrite <- app_assoc; reflexivity.
Qed.

Lemma app_run_calls_witness :
  let w := world_two (ApiText (Some (pylit "['2 eggs']"))) (ApiText (Some long_int_reply)) in
  app_generate w sample_page true (Some sample_upload) (s2c "Any") 30 [] init_session [] =
    (Exc int_limit_error, init_session,
     [identify_contents sample_upload; recipe_contents (pylit "['2 eggs']") (s2c "Any") 30 []]) /\
  ((exists e, st_image sample_page sample_upload = Some e /\ @Exc app_branch int_limit_error = Exc e /\
      init_session = init_session /\
      [identify_contents sample_upload; recipe_contents (pylit "['2 eggs']") (s2c "Any") 30 []] = []) \/
   (st_image sample_page sample_upload = None /\
    ([identify_contents sample_upload; recipe_contents (pylit "['2 eggs']") (s2c "Any") 30 []] = [] \/
     [identify_contents sample_upload; recipe_contents (pylit "['2 eggs']") (s2c "Any") 30 []] =
       [] ++ [identify_contents sample_upload])) \/
   (st_image sample_page sample_upload = None /\
    exists t, model_call w (identify_contents sample_upload) = ApiText (Some t) /\
      truthy (strip_fences (s2c "python") t) = true /\
      contains sentinel (strip_fences (s2c "python") t) = false /\
      contains (s2c "Error") (strip_fences (s2c "python") t) = false /\
      [identify_contents sample_upload; recipe_contents (pylit "['2 eggs']") (s2c "Any") 30 []] =
        [] ++ [identify_contents sample_upload;
               recipe_contents (strip_fences (s2c "python") t) (s2c "Any") 30 []])).
Proof.
  intros w.
  assert (H : app_generate w sample_page true (Some sample_upload) (s2c "Any") 30 [] init_session [] =
    (Exc int_limit_error, init_session,
     [identify_contents sample_upload; recipe_contents (pylit "['2 eggs']") (s2c "Any") 30 []]))
    by (vm_compute; reflexivity).
  split; [exact H|]. exact (app_run_calls _ _ _ _ _ _ _ _ _ _ _ H).
Defined.

(** A recipe reply that [json.loads] reads as something other than a
    JSON object (a list, a string, a number, ...) is stored in
    [recipe_data] before [.get] raises [AttributeError] at line 150;
    when that value is truthy, every later run raises the same error
    at line 161. *)
Theorem app_non_object_reply_stored_then_raises (w : world) (pe : page_env) (f : uploaded_file) (cuisine : pystr)
    (max_time : Z) (dietary_filters : list pystr) (s : session) (tr : calls) (k t g : pystr) (v : pyval) :
  st_image pe f = None ->
  key_resolved w = Some k -> client_init w k = None ->
  model_call w (identify_contents f) = ApiText (Some t) ->
  truthy (strip_fences (s2c "python") t) = true ->
  contains sentinel (strip_fences (s2c "python") t) = false ->
  contains (s2c "Error") (strip_fences (s2c "python") t) = false ->
  model_call w (recipe_contents (strip_fences (s2c "python") t) cuisine max_time dietary_filters) = ApiText (Some g) ->
  json_loads (json_budget pe) (strip_fences (s2c "json") g) = Scanned v ->
  (forall d, v <> PDict d) ->
  app_generate w pe true (Some f) cuisine max_time dietary_filters s tr =
    (Exc attribute_error_get, set_recipe_data s v,
     tr ++ [identify_contents f; recipe_contents (strip_fences (s2c "python") t) cuisine max_time dietary_filters]) /\
  (py_truthy v = true -> forall button cuisine',
     render (set_recipe_data s v) button cuisine' = RecipeScreen (DisplayRaised attribute_error_get)).
Proof.
  intros Hi Hk Hc Hm Ht Hs He Hg Hv Hnd.
  rewrite (app_generate_recipe_reply w pe f cuisine max_time dietary_filters s tr k t g Hi Hk Hc Hm Ht Hs He Hg).
  cbv zeta. rewrite Hv.
  split.
  - destruct v; try reflexivity. exfalso. exact (Hnd d eq_refl).
  - intros Htv button cuisine'. unfold render, display. cbn [recipe_data set_recipe_data].
    rewrite Htv. cbv beta iota. destruct v; try reflexivity. exfalso. exact (Hnd d eq_refl).
Qed.

Lemma app_non_object_reply_stored_then_raises_witness :
  app_generate (world_two (ApiText (Some (pylit "['2 eggs']"))) (ApiText (Some (s2c "[1]"))))
    sample_page true (Some sample_upload) (s2c "Any") 30 [] init_session [] =
    (Exc attribute_error_get, set_recipe_data init_session (PList [PInt 1]),
     [] ++ [identify_contents sample_upload;
            recipe_contents (strip_fences (s2c "python") (pylit "['2 eggs']")) (s2c "Any") 30 []]) /\
  (py_truthy (PList [PInt 1]) = true -> forall button cuisine',
     render (set_recipe_data init_session (PList [PInt 1])) button cuisine' =
     RecipeScreen (DisplayRaised attribute_error_get)).
Proof.
  apply (app_non_object_reply_stored_then_raises _ _ _ _ _ _ _ _ (s2c "key") (pylit "['2 eggs']") (s2c "[1]"));
    try (vm_compute; reflexivity).
  intros d H. discriminate H.
Defined.

(** A recipe reply on which [json.loads] raises [JSONDecodeError] resets
    [recipe_data] to [None] after both model calls, so the same run ends
    on the upload warning. *)
Theorem app_unparsable_reply_warns (w : world) (pe : page_env) (f : uploaded_file) (cuisine : pystr)
    (max_time : Z) (dietary_filters : list pystr) (s : session) (tr : calls) (k t g : pystr) :
  st_image pe f = None ->
  key_resolved w = Some k -> client_init w k = None ->
  model_call w (identify_contents f) = ApiText (Some t) ->
  truthy (strip_fences (s2c "python") t) = true ->
  contains sentinel (strip_fences (s2c "python") t) = false ->
  contains (s2c "Error") (strip_fences (s2c "python") t) = false ->
  model_call w (recipe_contents (strip_fences (s2c "python") t) cuisine max_time dietary_filters) = ApiText (Some g) ->
  json_loads (json_budget pe) (strip_fences (s2c "json") g) = DecodeError ->
  app_generate w pe true (Some f) cuisine max_time dietary_filters s tr =
    (Ret (RecipeUnparsable (strip_fences (s2c "python") t) (strip_fences (s2c "json") g)),
     set_recipe_data s PNone,
     tr ++ [identify_contents f; recipe_contents (strip_fences (s2c "python") t) cuisine max_time dietary_filters]) /\
  render (set_recipe_data s PNone) true cuisine = UploadWarning.
Proof.
  intros Hi Hk Hc Hm Ht Hs He Hg Hv.
  rewrite (app_generate_recipe_reply w pe f cuisine max_time dietary_filters s tr k t g Hi Hk Hc Hm Ht Hs He Hg).
  cbv zeta. rewrite Hv. split; reflexivity.
Qed.

Lemma app_unparsable_reply_warns_witness :
  app_generate (world_two (ApiText (Some (pylit "['2 eggs']"))) (ApiText (Some (s2c "Sorry, I cannot help."))))
    sample_page true (Some sample_upload) (s2c "Any") 30 [] init_session [] =
    (Ret (RecipeUnparsable (strip_fences (s2c "python") (pylit "['2 eggs']"))
                           (strip_fences (s2c "json") (s2c "Sorry, I cannot help."))),
     set_recipe_data init_session PNone,
     [] ++ [identify_contents sample_upload;
            recipe_contents (strip_fences (s2c "python") (pylit "['2 eggs']")) (s2c "Any") 30 []]) /\
  render (set_recipe_data init_session PNone) true (s2c "Any") = UploadWarning.
Proof.
  apply (app_unparsable_reply_warns _ _ _ _ _ _ _ _ (s2c "key") (pylit "['2 eggs']") (s2c "Sorry, I cannot help."));
    vm_compute; reflexivity.
Defined.

(** Line 153 catches only [json.JSONDecodeError]: when [json.loads]
    raises another exception on the recipe reply (the [ValueError] of an
    integer of more than 4300 digits, or a [RecursionError] on deep
    nesting), it escapes the script after both model calls and the
    session is left as it was. *)
Theorem app_json_loads_exception_escapes (w : world) (pe : page_env) (f : uploaded_file) (cuisine : pystr)
    (max_time : Z) (dietary_filters : list pystr) (s : session) (tr : calls) (k t g e : pystr) :
  st_image pe f = None ->
  key_resolved w = Some k -> client_init w k = None ->
  model_call w (identify_contents f) = ApiText (Some t) ->
  truthy (strip_fences (s2c "python") t) = true ->
  contains sentinel (strip_fences (s2c "python") t) = false ->
  contains (s2c "Error") (strip_fences (s2c "python") t) = false ->
  model_call w (recipe_contents (strip_fences (s2c "python") t) cuisine max_time dietary_filters) = ApiText (Some g) ->
  json_loads (json_budget pe) (strip_fences (s2c "json") g) = OtherError e ->
  app_generate w pe true (Some f) cuisine max_time dietary_filters s tr =
    (Exc e, s,
     tr ++ [identify_contents f; recipe_contents (strip_fences (s2c "python") t) cuisine max_time dietary_filters]).
Proof.
  intros Hi Hk Hc Hm Ht Hs He Hg Hv.
  rewrite (app_generate_recipe_reply w pe f cuisine max_time dietary_filters s tr k t g Hi Hk Hc Hm Ht Hs He Hg).
  cbv zeta. rewrite Hv. reflexivity.
Qed.

Lemma app_json_loads_exception_escapes_witness :
  app_generate (world_two (ApiText (Some (pylit "['2 eggs']"))) (ApiText (Some long_int_reply)))
    sample_page true (Some sample_upload) (s2c "Any") 30 [] init_session [] =
    (Exc int_limit_error, init_session,
     [] ++ [identify_contents sample_upload;
            recipe_contents (strip_fences (s2c "python") (pylit "['2 eggs']")) (s2c "Any") 30 []]) /\
  app_generate (world_two (ApiText (Some (pylit "['2 eggs']")))
                          (ApiText (Some (repeat 91 901 ++ repeat 93 901))))
    sample_page true (Some sample_upload) (s2c "Any") 30 [] init_session [] =
    (Exc recursion_error_array, init_session,
     [] ++ [identify_contents sample_upload;
            recipe_contents (strip_fences (s2c "python") (pylit "['2 eggs']")) (s2c "Any") 30 []]).
Proof.
  split.
  - apply (app_json_loads_exception_escapes _ _ _ _ _ _ _ _ (s2c "key") (pylit "['2 eggs']") long_int_reply);
      vm_compute; reflexivity.
  - apply (app_json_loads_exception_escapes _ _ _ _ _ _ _ _ (s2c "key") (pylit "['2 eggs']")
             (repeat 91 901 ++ repeat 93 901));
      vm_compute; reflexivity.
Defined.

(** When the cleaned reply to the image request is empty, none of the
    branches of lines 119-155 applies: the run makes one model call and
    leaves the session untouched, so an earlier recipe stays on screen. *)
Theorem app_empty_ingredients_keep_session (w : world) (pe : page_env) (f : uploaded_file) (cuisine : pystr)
    (max_time : Z) (dietary_filters : list pystr) (s : session) (tr : calls) (k t : pystr) :
  st_image pe f = None ->
  key_resolved w = Some k -> client_init w k = None ->
  model_call w (identify_contents f) = ApiText (Some t) ->
  strip_fences (s2c "python") t = [] ->
  app_generate w pe true (Some f) cuisine max_time dietary_filters s tr =
    (Ret (NothingIdentified []), s, tr ++ [identify_contents f]).
Proof.
  intros Hi Hk Hc Hm He.
  unfold app_generate. rewrite Hi, identify_ingredients_eq, Hk, Hc, Hm. cbv beta iota.
  rewrite He. reflexivity.
Qed.

Lemma app_empty_ingredients_keep_session_witness :
  app_generate (world_of (Some (s2c "key")) None (ApiText (Some (s2c "```python```"))))
    sample_page true (Some sample_upload) (s2c "Any") 30 [] init_session [] =
    (Ret (NothingIdentified []), init_session, [] ++ [identify_contents sample_upload]).
Proof.
  apply (app_empty_ingredients_keep_session _ _ _ _ _ _ _ _ (s2c "key") (s2c "```python```"));
    vm_compute; reflexivity.
Defined.

(** An answer to the image request whose cleaned text contains [Error]
    anywhere (not only the error strings of ai_processing.py) is treated
    as a technical error or no-food result: the stored recipe is cleared
    and no recipe is requested. *)
Theorem app_error_word_in_reply_stops (w : world) (pe : page_env) (f : uploaded_file) (cuisine : pystr)
    (max_time : Z) (dietary_filters : list pystr) (s : session) (tr : calls) (k t : pystr) :
  st_image pe f = None ->
  key_resolved w = Some k -> client_init w k = None ->
  model_call w (identify_contents f) = ApiText (Some t) ->
  contains (s2c "Error") (strip_fences (s2c "python") t) = true ->
  app_generate w pe true (Some f) cuisine max_time dietary_filters s tr =
    (Ret (if truthy (strip_fences (s2c "python") t) && contains sentinel (strip_fences (s2c "python") t)
          then NoFoodDetected (strip_fences (s2c "python") t)
          else TechnicalError (strip_fences (s2c "python") t)),
     set_recipe_data s PNone, tr ++ [identify_contents f]).
Proof.
  intros Hi Hk Hc Hm He. apply app_generate_error_ingredients; [exact Hi| |exact He].
  rewrite identify_ingredients_eq, Hk, Hc, Hm. reflexivity.
Qed.

Lemma app_error_word_in_reply_stops_witness :
  app_generate (world_of (Some (s2c "key")) None (ApiText (Some (pylit "['1 jar Error-Free pickles']"))))
    sample_page true (Some sample_upload) (s2c "Any") 30 [] init_session [] =
    (Ret (TechnicalError (pylit "['1 jar Error-Free pickles']")),
     set_recipe_data init_session PNone, [] ++ [identify_contents sample_upload]).
Proof.
  rewrite (app_error_word_in_reply_stops _ _ _ _ _ _ _ _ (s2c "key") (pylit "['1 jar Error-Free pickles']"));
    vm_compute; reflexivity.
Defined.
